(** * Sales data cleaning pipeline ([data_cleaning.py])

    A shallow embedding of the five stages of the script and of the pandas
    operations they call, followed by the properties of the stages.

    Conventions of the embedding.
    - A Python [str] is a Rocq [string]; a character stands for the code
      point of the same number (U+0000 .. U+00FF).
    - A [DataFrame] is columnar: a row index and a list of labelled series,
      each series carrying its dtype: [int64], [float64], [bool] or
      [object].  An [object] series is a text column: each of its values
      is a [str] or missing ([None]/[NaN]); object columns that hold other
      Python objects are outside the model.
    - [float64] values are [spec_float], the IEEE 754 model of the
      Standard Library.
    - [print] appends a line to the standard output of the [World]; a line
      records the interpolated values of the f-string it comes from.
    - A stage is a computation in the monad [M]: it reads and writes the
      [World] and either returns a value or raises. *)

From Stdlib Require Import ZArith Ascii String List SpecFloat.
From stdpp Require Import base list strings gmap.

Local Open Scope string_scope.

(** ** Python strings *)

Module Py.

(** Code point of a character. *)
Definition ord (c : ascii) : N := N_of_ascii c.

Definition between (lo hi n : N) : bool := (lo <=? n)%N && (n <=? hi)%N.

(** [str.isspace] on one character: TAB..CR, FS..US, SPACE, NEL, NBSP. *)
Definition isspace (c : ascii) : bool :=
  between 9 13 (ord c) || between 28 32 (ord c)
  || (ord c =? 133)%N || (ord c =? 160)%N.

(** [str.lower] on one character: A-Z and the upper-case letters of the
    Latin-1 supplement (U+00C0 .. U+00DE without the multiplication sign). *)
Definition lower_char (c : ascii) : ascii :=
  if between 65 90 (ord c)
     || (between 192 222 (ord c) && negb (ord c =? 215)%N)
  then ascii_of_N (ord c + 32)
  else c.

Fixpoint lstrip_chars (l : list ascii) : list ascii :=
  match l with
  | c :: l' => if isspace c then lstrip_chars l' else l
  | [] => []
  end.

Definition rstrip_chars (l : list ascii) : list ascii :=
  rev (lstrip_chars (rev l)).

(** [s.strip()] *)
Definition strip (s : string) : string :=
  string_of_list_ascii (rstrip_chars (lstrip_chars (list_ascii_of_string s))).

(** [s.lower()] *)
Definition lower (s : string) : string :=
  string_of_list_ascii (map lower_char (list_ascii_of_string s)).

(** [s.replace(old, new)] for one-character [old] and [new]. *)
Definition replace_char (old new : ascii) (s : string) : string :=
  string_of_list_ascii
    (map (fun c => if Ascii.eqb c old then new else c) (list_ascii_of_string s)).

(** Membership in the character class [[a-z0-9_]]. *)
Definition word_char (c : ascii) : bool :=
  between 97 122 (ord c) || between 48 57 (ord c) || (ord c =? 95)%N.

(** [re.sub('[^a-z0-9_]', '', s)] *)
Definition remove_special (s : string) : string :=
  string_of_list_ascii (List.filter word_char (list_ascii_of_string s)).

(** [sub in s] *)
Fixpoint contains (sub s : string) : bool :=
  String.prefix sub s
  || match s with
     | EmptyString => false
     | String _ s' => contains sub s'
     end.

(** [s] is made of whitespace only. *)
Definition all_space (s : string) : bool :=
  forallb isspace (list_ascii_of_string s).

End Py.

(** The four steps [clean_column_names] applies to every column label
    (lines 48-51), in the order of the source. *)
Definition normalize_name (name : string) : string :=
  Py.remove_special (Py.replace_char " " "_" (Py.lower (Py.strip name))).

(** ** Series and data frames *)

(** The values of a numeric series ([pd.api.types.is_numeric_dtype] holds
    of [int64], [float64] and [bool]). *)
Inductive Numeric :=
| Int64 (v : list Z)
| Float64 (v : list spec_float)
| Bool (v : list bool).

(** A series with its dtype.  [Obj] is dtype [object]: every value is a
    [str] or missing. *)
Inductive Series :=
| Num (d : Numeric)
| Obj (v : list (option string)).

Record DataFrame := {
  index : list Z;                  (* row labels *)
  items : list (string * Series)   (* the columns, in order *)
}.

(** [df.columns] *)
Definition columns (df : DataFrame) : list string := (items df).*1.

(** [len(df)] *)
Definition len (df : DataFrame) : nat := length (index df).

Definition numeric_len (d : Numeric) : nat :=
  match d with
  | Int64 v => length v
  | Float64 v => length v
  | Bool v => length v
  end.

Definition series_len (s : Series) : nat :=
  match s with
  | Num d => numeric_len d
  | Obj v => length v
  end.

(** Every column is as long as the index. *)
Definition aligned (df : DataFrame) : Prop :=
  Forall (fun it => series_len it.2 = len df) (items df).

(** [df.copy()]: the stages work on a private copy, so the embedding
    passes frames by value. *)
Definition copy (df : DataFrame) : DataFrame := df.

(** [df.columns = names] (the lengths agree at every use in the script). *)
Definition set_columns (names : list string) (df : DataFrame) : DataFrame :=
  {| index := index df; items := zip names (items df).*2 |}.

(** [df[col]]: the columns labelled [col].  One column is a [Series];
    several (a duplicated label) are a [DataFrame]. *)
Definition getitem (df : DataFrame) (col : string) : list Series :=
  (List.filter (fun it => String.eqb it.1 col) (items df)).*2.

(** [df[col] = s] *)
Definition setitem (col : string) (s : Series) (df : DataFrame) : DataFrame :=
  {| index := index df;
     items :=
       if existsb (String.eqb col) (columns df)
       then map (fun it => if String.eqb it.1 col then (it.1, s) else it) (items df)
       else items df ++ [(col, s)] |}.

(** [s.dtype == 'object'] *)
Definition is_object (s : Series) : bool :=
  match s with Obj _ => true | Num _ => false end.

(** [df.select_dtypes(include=['object'])] *)
Definition select_dtypes_object (df : DataFrame) : DataFrame :=
  {| index := index df; items := List.filter (fun it => is_object it.2) (items df) |}.

(** Rows of a list kept by a boolean mask. *)
Fixpoint select {A} (mask : list bool) (l : list A) : list A :=
  match mask, l with
  | b :: mask', x :: l' => if b then x :: select mask' l' else select mask' l'
  | _, _ => []
  end.

Definition numeric_select (mask : list bool) (d : Numeric) : Numeric :=
  match d with
  | Int64 v => Int64 (select mask v)
  | Float64 v => Float64 (select mask v)
  | Bool v => Bool (select mask v)
  end.

Definition series_select (mask : list bool) (s : Series) : Series :=
  match s with
  | Num d => Num (numeric_select mask d)
  | Obj v => Obj (select mask v)
  end.

(** [df[mask]] for a boolean mask over the rows of [df]. *)
Definition boolean_index (mask : list bool) (df : DataFrame) : DataFrame :=
  {| index := select mask (index df);
     items := map (fun it => (it.1, series_select mask it.2)) (items df) |}.

Definition float_zero : spec_float := S754_zero false.

Definition is_nan (x : spec_float) : bool :=
  match x with S754_nan => true | _ => false end.

(** [x >= 0] on a [float64]: false on NaN. *)
Definition float_ge0 (x : spec_float) : bool := SFleb float_zero x.

(** [x < 0] on a [float64]. *)
Definition float_lt0 (x : spec_float) : bool := SFltb x float_zero.

(** [s >= 0] on a numeric series ([True] and [False] compare as 1 and 0). *)
Definition ge_zero (d : Numeric) : list bool :=
  match d with
  | Int64 v => map (fun z => (0 <=? z)%Z) v
  | Float64 v => map float_ge0 v
  | Bool v => map (fun b => (0 <=? Z.b2z b)%Z) v
  end.

(** [s.notna()]: [int64] and [bool] have no missing value, a [float64]
    is missing when it is NaN, an [object] when it is [None]/[NaN]. *)
Definition notna (s : Series) : list bool :=
  match s with
  | Num (Int64 v) => map (fun _ => true) v
  | Num (Float64 v) => map (fun x => negb (is_nan x)) v
  | Num (Bool v) => map (fun _ => true) v
  | Obj v => map (fun o => match o with Some _ => true | None => false end) v
  end.

(** [s.str.strip()] on an [object] series: missing values stay missing. *)
Definition str_strip (v : list (option string)) : list (option string) :=
  map (option_map Py.strip) v.

(** Pointwise conjunction of the [notna] masks of [cols], over [n] rows. *)
Definition all_notna (n : nat) (cols : list Series) : list bool :=
  foldr (fun s m => zip_with andb (notna s) m) (replicate n true) cols.

(** [df.dropna(subset=subset)]: keeps the rows with no missing value in
    any column whose label is in [subset]. *)
Definition dropna (subset : list string) (df : DataFrame) : DataFrame :=
  let agg_obj :=
    List.filter (fun it => existsb (String.eqb it.1) subset) (items df) in
  boolean_index (all_notna (len df) agg_obj.*2) df.

(** First [n] rows: [df.head(n)]. *)
Definition head (n : nat) (df : DataFrame) : DataFrame :=
  boolean_index (replicate n true) df.

Inductive Dtype := int64 | float64 | bool_ | object.

Definition dtype (s : Series) : Dtype :=
  match s with
  | Num (Int64 _) => int64
  | Num (Float64 _) => float64
  | Num (Bool _) => bool_
  | Obj _ => object
  end.

(** [df.dtypes] *)
Definition dtypes (df : DataFrame) : list (string * Dtype) :=
  map (fun it => (it.1, dtype it.2)) (items df).

(** [df.shape] *)
Definition shape (df : DataFrame) : nat * nat := (len df, length (columns df)).

(** ** Exceptions, output and the world *)

(** What [pd.read_csv] raises on a file that exists. *)
Inductive ReadFailure :=
| ParserError (msg : string)
| EmptyDataError (msg : string)
| UnicodeDecodeError (msg : string).

Inductive Exception :=
| FileNotFoundError (path : string)
| ReadError (e : ReadFailure)
| KeyError (key : string)
| AttributeError (msg : string)
| ValueError (msg : string)
| OSError (msg : string).

(** The error kinds of the specification. *)
Inductive ErrorKind := NotFoundError | ParseError | Unclassified.

Definition error_kind (e : Exception) : ErrorKind :=
  match e with
  | FileNotFoundError _ => NotFoundError
  | ReadError _ => ParseError
  | KeyError _ | AttributeError _ | ValueError _ | OSError _ => Unclassified
  end.

(** One line per [print] of the script, with the values the f-string
    interpolates. *)
Inductive Line :=
| LoadedRows (n : nat) (path : string)
    (* "Successfully loaded {len(df)} rows from {file_path}" *)
| ErrorFileNotFound (path : string)
    (* "Error: File not found at {file_path}" *)
| ErrorLoadingData (e : Exception)
    (* "Error loading data: {e}" *)
| CleanedColumnNames (names : list string)
    (* "Cleaned column names: {list(df.columns)}" *)
| StrippedWhitespace (n : nat)
    (* "Stripped whitespace from {len(text_columns)} text columns" *)
| RemovedMissing (rows_removed : Z) (critical_columns : list string)
    (* "Removed {rows_removed} rows with missing critical values in {critical_columns}" *)
| WarningNoCriticalColumns
    (* "Warning: No critical columns identified. Check column names." *)
| RemovedInvalid (rows_removed : Z)
    (* "Removed {rows_removed} rows with invalid values (negative prices or quantities)" *)
| StartingPipeline          (* "\n=== Starting Data Cleaning Pipeline ===\n" *)
| RawDataShape (sh : nat * nat)      (* "\nRaw data shape: {df_raw.shape}" *)
| CleanedDataShape (sh : nat * nat)  (* "\nCleaned data shape: {df_clean.shape}" *)
| SavedCleanedData (path : string)   (* "Saved cleaned data to {cleaned_path}" *)
| CleaningComplete          (* "\n=== Cleaning Complete ===" *)
| FirstRowsHeader           (* "\nFirst few rows of cleaned data:" *)
| PrintedFrame (df : DataFrame)      (* print(df_clean.head()) *)
| DataTypesHeader           (* "\nData types:" *)
| PrintedDtypes (d : list (string * Dtype)).  (* print(df_clean.dtypes) *)

(** The file system (path to contents) and the standard output. *)
Record World := {
  files : gmap string string;
  stdout : list Line
}.

Inductive Outcome (A : Type) :=
| Return (a : A)
| Raise (e : Exception).
Arguments Return {A} a.
Arguments Raise {A} e.

Definition M (A : Type) : Type := World -> Outcome A * World.

#[global] Instance M_ret : MRet M := fun A a w => (Return a, w).

#[global] Instance M_bind : MBind M := fun A B f m w =>
  match m w with
  | (Return a, w') => f a w'
  | (Raise e, w') => (Raise e, w')
  end.

Definition raise {A} (e : Exception) : M A := fun w => (Raise e, w).

(** [try: body  except Exception as e: handler e] *)
Definition try_except {A} (body : M A) (handler : Exception -> M A) : M A :=
  fun w =>
    match body w with
    | (Return a, w') => (Return a, w')
    | (Raise e, w') => handler e w'
    end.

Definition print (l : Line) : M unit :=
  fun w => (Return tt, {| files := files w; stdout := stdout w ++ [l] |}).

(** [for x in l: a = body x a] *)
Fixpoint for_in {A B} (l : list B) (body : B -> A -> M A) (a : A) : M A :=
  match l with
  | [] => mret a
  | x :: l' => a' ← body x a; for_in l' body a'
  end.

(** The value a computation returns, when it returns. *)
Definition returned {A} (r : Outcome A * World) : option A :=
  match r.1 with Return a => Some a | Raise _ => None end.

(** What a computation printed, started on an empty output. *)
Definition printed {A} (m : M A) : list Line :=
  stdout (m {| files := ∅; stdout := [] |}).2.

(** ** The stages of the pipeline *)

(** ['price' in col or 'quantity' in col or 'qty' in col] (line 92) *)
Definition is_critical (col : string) : bool :=
  Py.contains "price" col || Py.contains "quantity" col || Py.contains "qty" col.

(** ['quantity' in col or 'qty' in col] (line 119) *)
Definition is_quantity (col : string) : bool :=
  Py.contains "quantity" col || Py.contains "qty" col.

(** ['price' in col] (line 125) *)
Definition is_price (col : string) : bool := Py.contains "price" col.

Definition clean_column_names (df : DataFrame) : M DataFrame :=
  let df := copy df in
  let df := set_columns (map Py.strip (columns df)) df in
  let df := set_columns (map Py.lower (columns df)) df in
  let df := set_columns (map (Py.replace_char " " "_") (columns df)) df in
  let df := set_columns (map Py.remove_special (columns df)) df in
  print (CleanedColumnNames (columns df));;
  mret df.

(** What the condition [df[col].dtype == 'object'] of line 71 raises when
    [col] labels several columns, so that [df[col]] is a frame.  A frame
    has no attribute [dtype], unless [dtype] is the label of its columns:
    then [df[col].dtype] is that frame again, the comparison gives a
    frame of booleans, and its truth value is ambiguous. *)
Definition frame_has_no_dtype : Exception :=
  AttributeError "'DataFrame' object has no attribute 'dtype'".
Definition frame_truth_ambiguous : Exception :=
  ValueError "The truth value of a DataFrame is ambiguous. Use a.empty, a.bool(), a.item(), a.any() or a.all().".
Definition duplicate_error (col : string) : Exception :=
  if String.eqb col "dtype" then frame_truth_ambiguous else frame_has_no_dtype.

(** The body of the loop of [strip_text_whitespace] (line 71).  The
    condition [df[col].dtype == 'object'] is evaluated first. *)
Definition strip_column (col : string) (df : DataFrame) : M DataFrame :=
  match getitem df col with
  | [] => raise (KeyError col)
  | [s] =>
      mret (setitem col
              (match s with
               | Obj v => Obj (str_strip v)
               | Num _ => s
               end) df)
  | _ => raise (duplicate_error col)
  end.

Definition strip_text_whitespace (df : DataFrame) : M DataFrame :=
  let df := copy df in
  let text_columns := columns (select_dtypes_object df) in
  df ← for_in text_columns strip_column df;
  print (StrippedWhitespace (length text_columns));;
  mret df.

Definition handle_missing_values (df : DataFrame) : M DataFrame :=
  let df := copy df in
  let initial_rows := len df in
  let critical_columns := List.filter is_critical (columns df) in
  match critical_columns with
  | _ :: _ =>
      let df := dropna critical_columns df in
      let rows_removed := (Z.of_nat initial_rows - Z.of_nat (len df))%Z in
      print (RemovedMissing rows_removed critical_columns);;
      mret df
  | [] =>
      print WarningNoCriticalColumns;;
      mret df
  end.

(** The body of both loops of [remove_invalid_rows] (lines 121-122 and
    127-128): [is_numeric_dtype] holds of a numeric series and of nothing
    else. *)
Definition drop_negative (df : DataFrame) (col : string) : DataFrame :=
  match getitem df col with
  | [Num d] => boolean_index (ge_zero d) df
  | _ => df
  end.

Definition remove_invalid_rows (df : DataFrame) : M DataFrame :=
  let df := copy df in
  let initial_rows := len df in
  let quantity_cols := List.filter is_quantity (columns df) in
  let df := foldl drop_negative df quantity_cols in
  let price_cols := List.filter is_price (columns df) in
  let df := foldl drop_negative df price_cols in
  let rows_removed := (Z.of_nat initial_rows - Z.of_nat (len df))%Z in
  print (RemovedInvalid rows_removed);;
  mret df.

Definition raw_path : string := "data/raw/sales_data_raw.csv".
Definition cleaned_path : string := "data/processed/sales_data_clean.csv".

Section Script.

(** The CSV reader and writer of pandas, on file contents. *)
Variable parse_csv : string -> ReadFailure + DataFrame.
Variable format_csv : DataFrame -> string.

(** Whether the directory a path lies in exists.  The script creates no
    directory, so this does not change while it runs. *)
Variable parent_exists : string -> bool.

(** [pd.read_csv(file_path)] *)
Definition read_csv (file_path : string) : M DataFrame :=
  fun w =>
    match files w !! file_path with
    | None => (Raise (FileNotFoundError file_path), w)
    | Some contents =>
        match parse_csv contents with
        | inl e => (Raise (ReadError e), w)
        | inr df => (Return df, w)
        end
    end.

Definition missing_directory : Exception :=
  OSError "Cannot save file into a non-existent directory".

(** [df.to_csv(path, index=False)]: pandas refuses to write into a
    directory that does not exist. *)
Definition to_csv (df : DataFrame) (path : string) : M unit :=
  fun w =>
    if parent_exists path
    then (Return tt,
          {| files := <[path := format_csv df]> (files w); stdout := stdout w |})
    else (Raise missing_directory, w).

Definition load_data (file_path : string) : M DataFrame :=
  try_except
    (df ← read_csv file_path;
     print (LoadedRows (len df) file_path);;
     mret df)
    (fun e =>
       match e with
       | FileNotFoundError _ =>
           print (ErrorFileNotFound file_path);;
           raise e
       | _ =>
           print (ErrorLoadingData e);;
           raise e
       end).

(** The [__main__] block. *)
Definition main : M unit :=
  print StartingPipeline;;
  df_raw ← load_data raw_path;
  print (RawDataShape (shape df_raw));;
  df_clean ← clean_column_names df_raw;
  df_clean ← strip_text_whitespace df_clean;
  df_clean ← handle_missing_values df_clean;
  df_clean ← remove_invalid_rows df_clean;
  to_csv df_clean cleaned_path;;
  print (CleanedDataShape (shape df_clean));;
  print (SavedCleanedData cleaned_path);;
  print CleaningComplete;;
  print FirstRowsHeader;;
  print (PrintedFrame (head 5 df_clean));;
  print DataTypesHeader;;
  print (PrintedDtypes (dtypes df_clean)).

End Script.

(** ** Vocabulary of the properties *)

(** [t] is [s] without its leading and trailing whitespace. *)
Definition trimmed_of (s t : string) : Prop :=
  exists pre post : list ascii,
    list_ascii_of_string s = (pre ++ list_ascii_of_string t ++ post)%list
    /\ forallb Py.isspace pre = true
    /\ forallb Py.isspace post = true
    /\ (forall c, hd_error (list_ascii_of_string t) = Some c -> Py.isspace c = false)
    /\ (forall c, last (list_ascii_of_string t) = Some c -> Py.isspace c = false).

(** What the text trimmer does to one series. *)
Definition trimmed_series (s : Series) : Series :=
  match s with
  | Obj v => Obj (map (option_map Py.strip) v)
  | Num d => Num d
  end.

(** Row [i] of the numeric series holds a negative number. *)
Definition negative_at (d : Numeric) (i : nat) : bool :=
  match d with
  | Int64 v => match v !! i with Some z => (z <? 0)%Z | None => false end
  | Float64 v => match v !! i with Some x => float_lt0 x | None => false end
  | Bool v => match v !! i with Some b => (Z.b2z b <? 0)%Z | None => false end
  end.

(** Row [i] of the numeric series holds NaN. *)
Definition nan_at (d : Numeric) (i : nat) : bool :=
  match d with
  | Float64 v => match v !! i with Some x => is_nan x | None => false end
  | Int64 _ | Bool _ => false
  end.

(** Row [i] of the series holds no value. *)
Definition missing_at (s : Series) (i : nat) : bool :=
  match s with
  | Num d => nan_at d i
  | Obj v => match v !! i with Some None => true | _ => false end
  end.

(** Every value of the numeric series is [>= 0]. *)
Definition nonnegative (d : Numeric) : Prop :=
  match d with
  | Int64 v => Forall (fun z => (0 <= z)%Z) v
  | Float64 v => Forall (fun x => float_ge0 x = true) v
  | Bool v => Forall (fun b => (0 <= Z.b2z b)%Z) v
  end.

(** The columns the invalid-row filter looks at. *)
Definition is_checked (col : string) : bool := is_quantity col || is_price col.

(** Some checked numeric column holds a negative number in row [i]. *)
Definition row_has_negative (df : DataFrame) (i : nat) : bool :=
  existsb (fun it =>
             is_checked it.1
             && match it.2 with Num d => negative_at d i | Obj _ => false end)
          (items df).

(** Some checked numeric column holds a negative number or NaN in row [i]. *)
Definition row_is_invalid (df : DataFrame) (i : nat) : bool :=
  existsb (fun it =>
             is_checked it.1
             && match it.2 with
                | Num d => negative_at d i || nan_at d i
                | Obj _ => false
                end)
          (items df).

(** Some critical column holds no value in row [i]. *)
Definition row_lacks_value (df : DataFrame) (i : nat) : bool :=
  existsb (fun it => is_critical it.1 && missing_at it.2 i) (items df).

(** The frame without the rows on which [drop] holds. *)
Definition without_rows (drop : nat -> bool) (df : DataFrame) : DataFrame :=
  boolean_index (map (fun i => negb (drop i)) (seq 0 (len df))) df.

(** The mask one loop iteration of [remove_invalid_rows] adds for [col],
    read on the rows of the input frame. *)
Definition and_checked (df : DataFrame) (mask : list bool) (col : string)
  : list bool :=
  match getitem df col with
  | [Num d] => zip_with andb mask (ge_zero d)
  | _ => mask
  end.

(** The entry of that mask at row [i]. *)
Definition check_at (df : DataFrame) (i : nat) (col : string) : bool :=
  match getitem df col with
  | [Num d] => default true (ge_zero d !! i)
  | _ => true
  end.

(** A value of a text column and its trimmed value. *)
Definition trimmed_value (o o' : option string) : Prop :=
  match o, o' with
  | Some s, Some t => trimmed_of s t
  | None, None => True
  | _, _ => False
  end.

(** A column before and after the text trimmer: same label; a text
    column has every value trimmed, any other column is unchanged. *)
Definition trimmed_column (it it' : string * Series) : Prop :=
  it'.1 = it.1
  /\ match it.2, it'.2 with
     | Obj v, Obj v' => Forall2 trimmed_value v v'
     | Num d, Num d' => d' = d
     | _, _ => False
     end.

(** No label of a text column is carried by a second column. *)
Definition text_labels_unique (df : DataFrame) : bool :=
  forallb (fun col => Nat.eqb (length (getitem df col)) 1)
          (columns (select_dtypes_object df)).

(** The frame with every text column trimmed. *)
Definition trim_frame (df : DataFrame) : DataFrame :=
  {| index := index df;
     items := map (fun it => (it.1, trimmed_series it.2)) (items df) |}.

(** The frame with the columns labelled in [cols] trimmed. *)
Definition strip_labels (cols : list string) (df : DataFrame) : DataFrame :=
  {| index := index df;
     items :=
       map (fun it =>
              if existsb (String.eqb it.1) cols
              then (it.1, trimmed_series it.2)
              else it)
           (items df) |}.

(** ** Sample tables *)

Definition empty_world : World := {| files := ∅; stdout := [] |}.

(** 1.0, 2.0 and -5.0 as binary64. *)
Definition f_one : spec_float := S754_finite false 4503599627370496 (-52).
Definition f_two : spec_float := S754_finite false 4503599627370496 (-51).
Definition f_minus_five : spec_float := S754_finite true 5629499534213120 (-50).

(** The scenario of the specification, after column-name normalization:
    one row without a quantity, one row with price -5. *)
Definition sample_sales : DataFrame :=
  {| index := [0; 1; 2; 3]%Z;
     items :=
       [("product_name", Obj [Some " Widget "; Some "Gadget"; Some "  "; None]);
        ("unit_price", Num (Float64 [f_one; f_minus_five; f_two; f_two]));
        ("qty_sold", Num (Float64 [f_two; f_one; S754_nan; f_one]))] |}.


(** A table without critical column. *)
Definition no_critical : DataFrame :=
  {| index := [0; 1]%Z;
     items := [("product", Obj [Some "a"; None]);
               ("amount", Num (Float64 [S754_nan; f_minus_five]))] |}.

(** Two numeric columns under the label price. *)
Definition duplicate_price : DataFrame :=
  {| index := [0; 1]%Z;
     items := [("price", Num (Float64 [f_minus_five; f_one]));
               ("price", Num (Float64 [f_two; f_one]))] |}.

(** Two text columns under the label qty, one with a value made of
    blanks. *)
Definition duplicate_blank : DataFrame :=
  {| index := [0]%Z;
     items := [("qty", Obj [Some "   "]); ("qty", Obj [Some "4"])] |}.

(** Two numeric columns under one label, beside a text column. *)
Definition duplicate_amount : DataFrame :=
  {| index := [0; 1]%Z;
     items := [("amount", Num (Int64 [1; 2]%Z));
               ("name", Obj [Some " a "; None]);
               ("amount", Num (Float64 [f_one; f_two]))] |}.

(** Every directory exists. *)
Definition all_exist (path : string) : bool := true.

(** A quantity column read as text, with a value made of blanks. *)
Definition text_qty : DataFrame :=
  {| index := [0; 1]%Z;
     items := [("qty", Obj [Some "3"; Some "   "]);
               ("price", Num (Float64 [f_one; f_two]))] |}.

(** A reader that finds every file empty, and a writer. *)
Definition parse_nothing (contents : string) : ReadFailure + DataFrame :=
  inl (EmptyDataError "No columns to parse from file").
Definition format_nothing (df : DataFrame) : string := "".

(** ** Vocabulary of the pipeline as a whole *)

(** The four cleaning stages in the order of the [__main__] block
    (lines 147-150). *)
Definition run_stages (df : DataFrame) : M DataFrame :=
  df ← clean_column_names df;
  df ← strip_text_whitespace df;
  df ← handle_missing_values df;
  remove_invalid_rows df.

(** Number of rows a mask keeps. *)
Definition count_kept (mask : list bool) : nat := length (List.filter id mask).

(** Number of rows of [df] on which [drop] holds. *)
Definition count_rows (drop : nat -> bool) (df : DataFrame) : nat :=
  length (List.filter drop (seq 0 (len df))).

(** A table in which the label of a text column is used twice. *)
Definition duplicate_name : DataFrame :=
  {| index := [0]%Z;
     items := [("qty", Num (Int64 [1%Z])); ("name", Obj [Some " a"]);
               ("name", Num (Float64 [f_one]))] |}.

(** A computation that leaves the file system as it found it. *)
Definition keeps_files {A} (m : M A) : Prop :=
  forall w, files (m w).2 = files w.

(** A computation that writes [path], and nothing else, exactly when it
    returns. *)
Definition writes_on_return {A} (path : string) (written : string -> Prop)
    (m : M A) : Prop :=
  forall w,
    match m w with
    | (Return _, w') =>
        exists contents, written contents
                         /\ files w' = <[path := contents]> (files w)
    | (Raise _, w') => files w' = files w
    end.

(** A table whose price and quantity columns were read as text. *)
Definition text_critical : DataFrame :=
  {| index := [0; 1]%Z;
     items := [("qty", Obj [Some "3"; Some "-1"]);
               ("price", Obj [Some "n/a"; None]);
               ("amount", Num (Int64 [-1; 2]%Z))] |}.

(** A reader that parses every file to [sample_sales], and a world that
    holds the raw file. *)
Definition parse_sample (contents : string) : ReadFailure + DataFrame :=
  inr sample_sales.
Definition sample_world : World :=
  {| files := {[ raw_path := "Product Name,Unit Price,Qty Sold" ]};
     stdout := [] |}.


(** * Properties *)

(** ** Strings *)

Lemma word_char_plain c :
  Py.word_char c = true ->
  Py.isspace c = false /\ Py.lower_char c = c /\ Ascii.eqb c " " = false.
Proof.
  destruct c as [[] [] [] [] [] [] [] []]; vm_compute; intros H;
    first [discriminate H | repeat split].
Qed.

Lemma lstrip_no_leading_space l :
  (forall c, hd_error l = Some c -> Py.isspace c = false) ->
  Py.lstrip_chars l = l.
Proof.
  destruct l as [|c l]; simpl; [reflexivity|].
  intros H. rewrite (H c eq_refl). reflexivity.
Qed.

Lemma lstrip_word_chars l :
  Forall (fun c => Py.word_char c = true) l -> Py.lstrip_chars l = l.
Proof.
  intros H. apply lstrip_no_leading_space. intros c Hc.
  destruct l as [|c' l]; simplify_eq/=.
  inversion H; subst. apply word_char_plain. assumption.
Qed.

Lemma rstrip_word_chars l :
  Forall (fun c => Py.word_char c = true) l -> Py.rstrip_chars l = l.
Proof.
  intros H. unfold Py.rstrip_chars.
  rewrite lstrip_word_chars.
  - apply rev_involutive.
  - apply Forall_forall. intros c Hc. apply list_elem_of_In, in_rev in Hc.
    rewrite Forall_forall in H. apply H, list_elem_of_In, Hc.
Qed.

Lemma map_word_chars (f : ascii -> ascii) l :
  (forall c, Py.word_char c = true -> f c = c) ->
  Forall (fun c => Py.word_char c = true) l -> map f l = l.
Proof.
  intros Hf. induction 1 as [|c l Hc _ IH]; simpl; [reflexivity|].
  rewrite Hf, IH by assumption. reflexivity.
Qed.

Lemma filter_word_chars l :
  Forall (fun c => Py.word_char c = true) l -> List.filter Py.word_char l = l.
Proof.
  induction 1 as [|c l Hc _ IH]; simpl; [reflexivity|].
  rewrite Hc, IH. reflexivity.
Qed.

Lemma filter_all_word_chars l :
  Forall (fun c => Py.word_char c = true) (List.filter Py.word_char l).
Proof.
  apply Forall_forall. intros c Hc.
  apply list_elem_of_In, filter_In in Hc. apply Hc.
Qed.

(** A normalized name is made of [a-z], [0-9] and [_] only. *)
Lemma normalize_name_word_chars name :
  Forall (fun c => Py.word_char c = true)
         (list_ascii_of_string (normalize_name name)).
Proof.
  unfold normalize_name, Py.remove_special.
  rewrite list_ascii_of_string_of_list_ascii. apply filter_all_word_chars.
Qed.

(** Each of the four steps leaves such a name alone. *)
Lemma strip_word_chars s :
  Forall (fun c => Py.word_char c = true) (list_ascii_of_string s) ->
  Py.strip s = s.
Proof.
  intros H. unfold Py.strip.
  rewrite lstrip_word_chars, rstrip_word_chars by assumption.
  apply string_of_list_ascii_of_string.
Qed.

Lemma lower_word_chars s :
  Forall (fun c => Py.word_char c = true) (list_ascii_of_string s) ->
  Py.lower s = s.
Proof.
  intros H. unfold Py.lower. rewrite map_word_chars; try assumption.
  - apply string_of_list_ascii_of_string.
  - intros c Hc. apply word_char_plain, Hc.
Qed.

Lemma replace_space_word_chars s :
  Forall (fun c => Py.word_char c = true) (list_ascii_of_string s) ->
  Py.replace_char " " "_" s = s.
Proof.
  intros H. unfold Py.replace_char. rewrite map_word_chars; try assumption.
  - apply string_of_list_ascii_of_string.
  - intros c Hc. apply word_char_plain in Hc as (_ & _ & ->). reflexivity.
Qed.

Lemma remove_special_word_chars s :
  Forall (fun c => Py.word_char c = true) (list_ascii_of_string s) ->
  Py.remove_special s = s.
Proof.
  intros H. unfold Py.remove_special. rewrite filter_word_chars by assumption.
  apply string_of_list_ascii_of_string.
Qed.

Lemma normalize_name_fixed s :
  Forall (fun c => Py.word_char c = true) (list_ascii_of_string s) ->
  normalize_name s = s.
Proof.
  intros H. unfold normalize_name.
  rewrite strip_word_chars, lower_word_chars, replace_space_word_chars
    by assumption.
  apply remove_special_word_chars, H.
Qed.

Lemma normalize_name_idempotent name :
  normalize_name (normalize_name name) = normalize_name name.
Proof. apply normalize_name_fixed, normalize_name_word_chars. Qed.

Lemma lstrip_split l :
  exists pre,
    l = (pre ++ Py.lstrip_chars l)%list
    /\ forallb Py.isspace pre = true
    /\ (forall c, hd_error (Py.lstrip_chars l) = Some c -> Py.isspace c = false).
Proof.
  induction l as [|c l (pre & Hl & Hpre & Hhd)]; simpl.
  - exists []. repeat split. discriminate.
  - destruct (Py.isspace c) eqn:Hc.
    + exists (c :: pre). simpl. rewrite Hc, Hpre. repeat split; [|assumption].
      f_equal. assumption.
    + exists []. repeat split. simpl. intros c' [= <-]. assumption.
Qed.

Lemma last_rev {A} (l : list A) : last (rev l) = hd_error l.
Proof. destruct l as [|x l]; simpl; [reflexivity|]. apply last_snoc. Qed.

Lemma rstrip_split l :
  exists post,
    l = (Py.rstrip_chars l ++ post)%list
    /\ forallb Py.isspace post = true
    /\ (forall c, last (Py.rstrip_chars l) = Some c -> Py.isspace c = false).
Proof.
  unfold Py.rstrip_chars.
  destruct (lstrip_split (rev l)) as (pre & Hl & Hpre & Hhd).
  exists (rev pre). split; [|split].
  - rewrite <- rev_app_distr, <- Hl. symmetry. apply rev_involutive.
  - rewrite forallb_forall in *. intros c Hc. apply Hpre, in_rev, Hc.
  - intros c. rewrite last_rev. apply Hhd.
Qed.

(** [strip] removes a run of whitespace at each end and leaves none. *)
Lemma strip_trimmed s : trimmed_of s (Py.strip s).
Proof.
  unfold trimmed_of, Py.strip. rewrite list_ascii_of_string_of_list_ascii.
  destruct (lstrip_split (list_ascii_of_string s)) as (pre & Hs & Hpre & Hhd).
  destruct (rstrip_split (Py.lstrip_chars (list_ascii_of_string s)))
    as (post & Hm & Hpost & Hlast).
  exists pre, post. repeat split; try assumption.
  - rewrite <- Hm. assumption.
  - intros c Hc. apply Hhd. rewrite Hm.
    destruct (Py.rstrip_chars _); simplify_eq/=. reflexivity.
Qed.

Lemma lstrip_all_space l :
  forallb Py.isspace l = true -> Py.lstrip_chars l = [].
Proof.
  induction l as [|c l IH]; simpl; [reflexivity|].
  intros [Hc Hl]%andb_prop. rewrite Hc. apply IH, Hl.
Qed.

(** A value made of whitespace only is stripped to the empty string. *)
Lemma strip_all_space s : Py.all_space s = true -> Py.strip s = "".
Proof.
  unfold Py.all_space, Py.strip. intros H.
  rewrite lstrip_all_space by assumption. reflexivity.
Qed.

(** ** Column-name normalizer *)

Lemma map_fmap {A B} (f : A -> B) (l : list A) : map f l = f <$> l.
Proof. reflexivity. Qed.

Lemma columns_length df : length (columns df) = length (items df).
Proof. unfold columns. apply length_fmap. Qed.

Lemma columns_set_columns names df :
  length names = length (items df) -> columns (set_columns names df) = names.
Proof.
  intros H. unfold columns, set_columns. simpl.
  apply fst_zip. rewrite length_fmap. lia.
Qed.

Lemma set_columns_twice names1 names2 df :
  length names1 = length (items df) ->
  set_columns names2 (set_columns names1 df) = set_columns names2 df.
Proof.
  intros H. unfold set_columns. simpl. f_equal. f_equal.
  apply snd_zip. rewrite length_fmap. lia.
Qed.

Lemma set_columns_same df : set_columns (columns df) df = df.
Proof.
  unfold set_columns, columns. rewrite zip_fst_snd. destruct df; reflexivity.
Qed.

Lemma len_set_columns names df : len (set_columns names df) = len df.
Proof. reflexivity. Qed.

(** The stage renames every column by [normalize_name], prints the new
    names and returns. *)
Lemma clean_column_names_run df w :
  clean_column_names df w =
  (Return (set_columns (map normalize_name (columns df)) df),
   {| files := files w;
      stdout := stdout w ++ [CleanedColumnNames (map normalize_name (columns df))] |}).
Proof.
  unfold clean_column_names, copy.
  assert (Hlen : forall f : string -> string,
             length (map f (columns df)) = length (items df)).
  { intros f. rewrite length_map. apply columns_length. }
  rewrite (columns_set_columns (map Py.strip (columns df)) df) by apply Hlen.
  rewrite (set_columns_twice (map Py.strip (columns df))) by apply Hlen.
  rewrite (columns_set_columns (map Py.lower _) df)
    by (rewrite !length_map; apply columns_length).
  rewrite (set_columns_twice (map Py.lower _))
    by (rewrite !length_map; apply columns_length).
  rewrite (columns_set_columns (map (Py.replace_char " " "_") _) df)
    by (rewrite !length_map; apply columns_length).
  rewrite (set_columns_twice (map (Py.replace_char " " "_") _))
    by (rewrite !length_map; apply columns_length).
  rewrite (columns_set_columns (map Py.remove_special _) df)
    by (rewrite !length_map; apply columns_length).
  rewrite !map_map. reflexivity.
Qed.

(** C6. Column-name normalization is idempotent: [clean_column_names]
    gives every column the name obtained by stripping, lower-casing,
    replacing spaces by underscores and removing every character outside
    [a-z0-9_], and applied to its own output it returns the same column
    names (indeed the same table). *)
Theorem clean_column_names_idempotent df w w' :
  exists df1 df2,
    returned (clean_column_names df w) = Some df1
    /\ columns df1 = map normalize_name (columns df)
    /\ returned (clean_column_names df1 w') = Some df2
    /\ columns df2 = columns df1
    /\ df2 = df1.
Proof.
  set (df1 := set_columns (map normalize_name (columns df)) df).
  assert (Hcols : columns df1 = map normalize_name (columns df)).
  { apply columns_set_columns. rewrite length_map. apply columns_length. }
  assert (Hfix : map normalize_name (columns df1) = columns df1).
  { rewrite Hcols, map_map. apply map_ext. intros. apply normalize_name_idempotent. }
  exists df1, df1. rewrite !clean_column_names_run. unfold returned. simpl.
  fold df1. rewrite Hfix, set_columns_same. auto.
Qed.

(** ** Boolean masks *)

Section Select.
Context {A : Type}.
Implicit Types (mask : list bool) (l : list A).

Lemma select_nil_r mask : select mask (@nil A) = [].
Proof. destruct mask; reflexivity. Qed.

Lemma select_length_le mask l : length (select mask l) <= length l.
Proof.
  revert l. induction mask as [|b mask IH]; intros [|x l]; simpl; try lia.
  specialize (IH l). destruct b; simpl; lia.
Qed.

Lemma select_all_true n l : length l <= n -> select (replicate n true) l = l.
Proof.
  revert l. induction n as [|n IH]; intros [|x l]; simpl; intros H;
    try reflexivity; try lia.
  rewrite IH by lia. reflexivity.
Qed.

(** Filtering a filtered list by a mask computed on the filtered rows is
    filtering once by the conjunction. *)
Lemma select_select mask1 mask2 l :
  select (select mask1 mask2) (select mask1 l)
  = select (zip_with andb mask1 mask2) l.
Proof.
  revert mask2 l.
  induction mask1 as [|b1 mask1 IH]; intros mask2 l; [reflexivity|].
  destruct mask2 as [|b2 mask2], l as [|x l], b1; simpl;
    rewrite ?select_nil_r; try reflexivity.
  - rewrite IH. reflexivity.
  - apply IH.
Qed.

Lemma select_Forall (P : A -> Prop) mask l :
  (forall i x, mask !! i = Some true -> l !! i = Some x -> P x) ->
  Forall P (select mask l).
Proof.
  revert l. induction mask as [|b mask IH]; intros [|x l] H; simpl;
    try constructor.
  destruct b.
  - constructor; [apply (H 0 x); reflexivity|].
    apply IH. intros i y. apply (H (S i) y).
  - apply IH. intros i y. apply (H (S i) y).
Qed.

(** Row [i] survives when the mask is true there. *)
Lemma select_lookup_kept mask l i x :
  mask !! i = Some true -> l !! i = Some x ->
  select mask l !! length (List.filter id (take i mask)) = Some x.
Proof.
  revert l i. induction mask as [|b mask IH]; intros [|y l] [|i];
    simpl; try discriminate.
  - intros [= ->] [= ->]. reflexivity.
  - intros Hm Hl. destruct b; simpl; apply IH; assumption.
Qed.
End Select.

Lemma select_map {A B} (f : A -> B) mask (l : list A) :
  select mask (map f l) = map f (select mask l).
Proof.
  revert l. induction mask as [|b mask IH]; intros [|x l]; simpl;
    try reflexivity.
  destruct b; simpl; rewrite IH; reflexivity.
Qed.

Lemma zip_with_andb_true_r mask n :
  length mask <= n -> zip_with andb mask (replicate n true) = mask.
Proof.
  revert n. induction mask as [|b mask IH]; intros [|n]; simpl; intros H;
    try reflexivity; try lia.
  rewrite IH by lia. rewrite andb_true_r. reflexivity.
Qed.

(** ** Frames under a mask *)

Lemma ge_zero_select mask d :
  ge_zero (numeric_select mask d) = select mask (ge_zero d).
Proof. destruct d; simpl; symmetry; apply select_map. Qed.

Lemma notna_select mask s :
  notna (series_select mask s) = select mask (notna s).
Proof. destruct s as [[]|]; simpl; symmetry; apply select_map. Qed.

Lemma series_select_select mask1 mask2 s :
  series_select (select mask1 mask2) (series_select mask1 s)
  = series_select (zip_with andb mask1 mask2) s.
Proof. destruct s as [[]|]; simpl; rewrite select_select; reflexivity. Qed.

Lemma boolean_index_twice mask1 mask2 df :
  boolean_index (select mask1 mask2) (boolean_index mask1 df)
  = boolean_index (zip_with andb mask1 mask2) df.
Proof.
  unfold boolean_index. simpl. rewrite select_select, map_map. f_equal.
  apply map_ext. intros [name s]. simpl. rewrite series_select_select.
  reflexivity.
Qed.

Lemma series_select_all_true n s :
  series_len s <= n -> series_select (replicate n true) s = s.
Proof.
  destruct s as [[]|]; simpl; intros H; rewrite select_all_true by assumption;
    reflexivity.
Qed.

Lemma boolean_index_all_true df :
  aligned df -> boolean_index (replicate (len df) true) df = df.
Proof.
  intros H. unfold boolean_index. destruct df as [idx its]. simpl. f_equal.
  - apply select_all_true. reflexivity.
  - unfold aligned, len in H. simpl in H. unfold len. simpl.
    revert H. generalize (length idx). intros n H.
    induction H as [|[name s] its' Hs _ IH]; simpl; [reflexivity|].
    rewrite IH. rewrite series_select_all_true; [reflexivity|].
    simpl in Hs. unfold len in Hs. simpl in Hs. lia.
Qed.

Lemma columns_boolean_index mask df :
  columns (boolean_index mask df) = columns df.
Proof.
  unfold columns, boolean_index. simpl. rewrite <- !map_fmap, map_map.
  reflexivity.
Qed.

Lemma len_boolean_index mask df : len (boolean_index mask df) <= len df.
Proof. apply select_length_le. Qed.

Lemma getitem_boolean_index mask df col :
  getitem (boolean_index mask df) col = map (series_select mask) (getitem df col).
Proof.
  unfold getitem, boolean_index. simpl. rewrite <- !map_fmap.
  induction (items df) as [|[name s] its IH]; simpl; [reflexivity|].
  destruct (String.eqb name col); simpl; rewrite IH; reflexivity.
Qed.

(** One loop iteration on a frame already filtered by [mask]. *)
Lemma drop_negative_boolean_index df mask col :
  drop_negative (boolean_index mask df) col
  = boolean_index (and_checked df mask col) df.
Proof.
  unfold drop_negative, and_checked. rewrite getitem_boolean_index.
  destruct (getitem df col) as [|[d|v] [|s' l]]; simpl; try reflexivity.
  rewrite ge_zero_select. apply boolean_index_twice.
Qed.

Lemma foldl_drop_negative df cols mask :
  foldl drop_negative (boolean_index mask df) cols
  = boolean_index (foldl (and_checked df) mask cols) df.
Proof.
  revert mask. induction cols as [|col cols IH]; intros mask; simpl;
    [reflexivity|].
  rewrite drop_negative_boolean_index. apply IH.
Qed.

(** ** Selecting a column by its label *)

Lemma filter_label_absent (its : list (string * Series)) col :
  col ∉ its.*1 -> List.filter (fun it => String.eqb it.1 col) its = [].
Proof.
  induction its as [|[name s] its IH]; simpl; [reflexivity|].
  intros H. apply not_elem_of_cons in H as [Hne Hnot].
  destruct (String.eqb_spec name col) as [->|_]; [congruence|].
  apply IH, Hnot.
Qed.

(** With unique labels [df[col]] is the one series labelled [col]. *)
Lemma getitem_unique df col s :
  NoDup (columns df) -> In (col, s) (items df) -> getitem df col = [s].
Proof.
  unfold getitem, columns. induction (items df) as [|[name s'] its IH]; simpl;
    [contradiction|].
  intros [Hnot Hnd]%NoDup_cons Hin.
  destruct (String.eqb_spec name col) as [->|Hne]; simpl.
  - rewrite filter_label_absent by assumption.
    destruct Hin as [[= ->]|Hin]; [reflexivity|].
    exfalso. apply Hnot, list_elem_of_In, (in_map fst _ _ Hin).
  - destruct Hin as [[= -> _]|Hin]; [congruence|]. apply IH; assumption.
Qed.

Lemma getitem_In df col s :
  In s (getitem df col) -> In (col, s) (items df).
Proof.
  unfold getitem. rewrite <- map_fmap. intros ([name s'] & <- & Hin)%in_map_iff.
  apply filter_In in Hin as [Hin Heq]. simpl in *.
  apply String.eqb_eq in Heq as <-. assumption.
Qed.

Lemma In_columns df col s : In (col, s) (items df) -> In col (columns df).
Proof. intros H. apply (in_map fst _ _ H). Qed.

Lemma aligned_In df col s :
  aligned df -> In (col, s) (items df) -> series_len s = len df.
Proof.
  unfold aligned. rewrite Forall_forall. intros H Hin.
  apply (H (col, s)), list_elem_of_In, Hin.
Qed.

Lemma length_ge_zero d : length (ge_zero d) = numeric_len d.
Proof. destruct d; simpl; apply length_map. Qed.

Lemma length_notna s : length (notna s) = series_len s.
Proof. destruct s as [[]|]; simpl; apply length_map. Qed.

(** ** Values against zero and missing values *)

Lemma float_ge0_spec x : float_ge0 x = negb (float_lt0 x || is_nan x).
Proof. destruct x as [[]|[]| |[] m e]; reflexivity. Qed.

Lemma ge_zero_at d i :
  default true (ge_zero d !! i) = negb (negative_at d i || nan_at d i).
Proof.
  destruct d as [v|v|v]; simpl; rewrite map_fmap, list_lookup_fmap;
    destruct (v !! i) as [x|]; simpl; try reflexivity.
  - rewrite orb_false_r. apply Z.leb_antisym.
  - apply float_ge0_spec.
  - destruct x; reflexivity.
Qed.

Lemma notna_at s i : default true (notna s !! i) = negb (missing_at s i).
Proof.
  destruct s as [[v|v|v]|v]; simpl; rewrite map_fmap, list_lookup_fmap;
    destruct (v !! i) as [x|]; simpl; try reflexivity.
  destruct x; reflexivity.
Qed.

Lemma is_checked_critical col : is_checked col = is_critical col.
Proof.
  unfold is_checked, is_critical, is_quantity, is_price.
  destruct (Py.contains "price" col), (Py.contains "quantity" col),
    (Py.contains "qty" col); reflexivity.
Qed.

(** ** Invalid-row filter *)

Lemma and_checked_lookup df mask col i b :
  aligned df -> i < len df -> mask !! i = Some b ->
  and_checked df mask col !! i = Some (b && check_at df i col).
Proof.
  intros Hal Hi Hm. unfold and_checked, check_at.
  destruct (getitem df col) as [|[d|v] [|s' l]] eqn:Hg;
    rewrite ?andb_true_r; try assumption.
  assert (Hlen : length (ge_zero d) = len df).
  { rewrite length_ge_zero. apply (aligned_In df col (Num d) Hal).
    apply getitem_In. rewrite Hg. left. reflexivity. }
  destruct (lookup_lt_is_Some_2 (ge_zero d) i) as [x Hx]; [lia|].
  rewrite lookup_zip_with, Hm, Hx. reflexivity.
Qed.

Lemma foldl_and_checked_lookup df cols mask i b :
  aligned df -> i < len df -> mask !! i = Some b ->
  foldl (and_checked df) mask cols !! i
  = Some (b && forallb (check_at df i) cols).
Proof.
  intros Hal Hi. revert mask b.
  induction cols as [|col cols IH]; intros mask b Hm; simpl.
  - rewrite andb_true_r. assumption.
  - rewrite (IH _ (b && check_at df i col)).
    + rewrite andb_assoc. reflexivity.
    + apply and_checked_lookup; assumption.
Qed.

Lemma foldl_and_checked_length df cols mask :
  aligned df -> length mask = len df ->
  length (foldl (and_checked df) mask cols) = len df.
Proof.
  intros Hal. revert mask.
  induction cols as [|col cols IH]; intros mask Hm; simpl; [assumption|].
  apply IH. unfold and_checked.
  destruct (getitem df col) as [|[d|v] [|s' l]] eqn:Hg; try assumption.
  rewrite length_zip_with, length_ge_zero, Hm.
  change (numeric_len d) with (series_len (Num d)).
  rewrite (aligned_In df col (Num d) Hal).
  - apply Nat.min_id.
  - apply getitem_In. rewrite Hg. left. reflexivity.
Qed.

(** The rows both loops keep are the rows that are not invalid. *)
Lemma checked_columns_row df i :
  NoDup (columns df) ->
  forallb (check_at df i)
          (List.filter is_quantity (columns df) ++ List.filter is_price (columns df))
  = negb (row_is_invalid df i).
Proof.
  intros Hnd. apply eq_true_iff_eq.
  rewrite forallb_forall, negb_true_iff. unfold row_is_invalid. split.
  - intros Hall. destruct (existsb _ _) eqn:Hex; [|reflexivity]. exfalso.
    apply existsb_exists in Hex as ([name s] & Hin & Hp). simpl in Hp.
    apply andb_prop in Hp as [Hname Hbad].
    destruct s as [d|v]; [|discriminate].
    assert (Hcol : In name (List.filter is_quantity (columns df)
                            ++ List.filter is_price (columns df))).
    { apply in_or_app. unfold is_checked in Hname.
      apply orb_prop in Hname as [Hq|Hp]; [left|right];
        apply filter_In; eauto using In_columns. }
    specialize (Hall name Hcol). unfold check_at in Hall.
    rewrite (getitem_unique df name (Num d) Hnd Hin), ge_zero_at, Hbad in Hall.
    discriminate.
  - intros Hex col Hcol. unfold check_at.
    destruct (getitem df col) as [|[d|v] [|s' l]] eqn:Hg; try reflexivity.
    rewrite ge_zero_at. apply negb_true_iff.
    destruct (negative_at d i || nan_at d i) eqn:Hbad; [|reflexivity].
    rewrite <- Hex. symmetry. apply existsb_exists. exists (col, Num d).
    split; [apply getitem_In; rewrite Hg; left; reflexivity|]. simpl.
    rewrite Hbad, andb_true_r. unfold is_checked.
    apply in_app_or in Hcol as [Hq|Hp]; apply filter_In in Hq || apply filter_In in Hp.
    + destruct Hq as [_ ->]. reflexivity.
    + destruct Hp as [_ ->]. apply orb_true_r.
Qed.

Lemma invalid_rows_mask df :
  NoDup (columns df) -> aligned df ->
  foldl (and_checked df) (replicate (len df) true)
        (List.filter is_quantity (columns df) ++ List.filter is_price (columns df))
  = map (fun i => negb (row_is_invalid df i)) (seq 0 (len df)).
Proof.
  intros Hnd Hal. apply (list_eq_same_length _ _ (len df)).
  - rewrite length_map, length_seq. reflexivity.
  - apply foldl_and_checked_length; [assumption|]. apply length_replicate.
  - intros i x y Hi Hx Hy.
    rewrite (foldl_and_checked_lookup df _ _ i true) in Hx;
      [|assumption|assumption|apply lookup_replicate_2; assumption].
    rewrite map_fmap, list_lookup_fmap, lookup_seq_lt in Hy by assumption.
    simpl in *. rewrite checked_columns_row in Hx by assumption. congruence.
Qed.

(** The two loops together. *)
Lemma invalid_rows_loops df :
  NoDup (columns df) -> aligned df ->
  let df1 := foldl drop_negative df (List.filter is_quantity (columns df)) in
  foldl drop_negative df1 (List.filter is_price (columns df1))
  = without_rows (row_is_invalid df) df.
Proof.
  intros Hnd Hal. simpl.
  rewrite <- (boolean_index_all_true df Hal) at 1 3.
  rewrite foldl_drop_negative, columns_boolean_index, foldl_drop_negative.
  rewrite <- foldl_app, invalid_rows_mask by assumption. reflexivity.
Qed.

(** What the stage returns and prints. *)
Lemma remove_invalid_rows_run df w :
  NoDup (columns df) -> aligned df ->
  remove_invalid_rows df w =
  (Return (without_rows (row_is_invalid df) df),
   {| files := files w;
      stdout := stdout w ++
        [RemovedInvalid (Z.of_nat (len df)
                         - Z.of_nat (len (without_rows (row_is_invalid df) df)))] |}).
Proof.
  intros Hnd Hal. unfold remove_invalid_rows, copy.
  pose proof (invalid_rows_loops df Hnd Hal) as H. simpl in H. rewrite H.
  reflexivity.
Qed.

Lemma mask_lookup_true (drop : nat -> bool) n i :
  map (fun i => negb (drop i)) (seq 0 n) !! i = Some true -> drop i = false.
Proof.
  rewrite map_fmap, list_lookup_fmap. intros H.
  destruct (seq 0 n !! i) as [j|] eqn:Hj; [|discriminate].
  apply lookup_seq in Hj as [-> _]. simpl in H.
  apply negb_true_iff. congruence.
Qed.

Lemma row_is_invalid_true df i :
  row_is_invalid df i = true <->
  exists name d,
    In (name, Num d) (items df) /\ is_critical name = true
    /\ (negative_at d i = true \/ nan_at d i = true).
Proof.
  unfold row_is_invalid. rewrite existsb_exists. split.
  - intros ([name [d|v]] & Hin & Hp); simpl in Hp;
      apply andb_prop in Hp as [Hname Hbad]; [|discriminate].
    exists name, d. rewrite <- is_checked_critical.
    repeat split; try assumption. apply orb_prop, Hbad.
  - intros (name & d & Hin & Hname & Hbad). exists (name, Num d).
    split; [assumption|]. simpl. rewrite is_checked_critical, Hname. simpl.
    destruct Hbad as [->| ->]; [reflexivity|apply orb_true_r].
Qed.

Lemma row_is_invalid_false df i name d :
  row_is_invalid df i = false ->
  In (name, Num d) (items df) -> is_critical name = true ->
  negative_at d i = false /\ nan_at d i = false.
Proof.
  intros Hrow Hin Hname.
  destruct (negative_at d i) eqn:Hneg, (nan_at d i) eqn:Hnan; auto;
    exfalso; apply not_true_iff_false in Hrow; apply Hrow;
    apply row_is_invalid_true; exists name, d; auto.
Qed.




(** The mask of the rows that both loops keep, on any table. *)
Lemma invalid_rows_loops_mask df :
  aligned df ->
  let df1 := foldl drop_negative df (List.filter is_quantity (columns df)) in
  foldl drop_negative df1 (List.filter is_price (columns df1))
  = boolean_index
      (foldl (and_checked df) (replicate (len df) true)
         (List.filter is_quantity (columns df)
          ++ List.filter is_price (columns df)))
      df.
Proof.
  intros Hal. simpl.
  rewrite <- (boolean_index_all_true df Hal) at 1 3.
  rewrite foldl_drop_negative, columns_boolean_index, foldl_drop_negative.
  rewrite <- foldl_app. reflexivity.
Qed.

Lemma single_label df col s1 s2 :
  length (getitem df col) = 1 ->
  In (col, s1) (items df) -> In (col, s2) (items df) -> s1 = s2.
Proof.
  intros Hone H1 H2.
  assert (G1 : In s1 (getitem df col)).
  { unfold getitem. rewrite <- map_fmap. apply in_map_iff. exists (col, s1).
    split; [reflexivity|]. apply filter_In.
    split; [assumption|apply String.eqb_refl]. }
  assert (G2 : In s2 (getitem df col)).
  { unfold getitem. rewrite <- map_fmap. apply in_map_iff. exists (col, s2).
    split; [reflexivity|]. apply filter_In.
    split; [assumption|apply String.eqb_refl]. }
  destruct (getitem df col) as [|s [|s' l]]; try discriminate.
  destruct G1 as [<-|[]], G2 as [<-|[]]. reflexivity.
Qed.

(** C4 (amended). After [remove_invalid_rows], every column whose name
    contains price, quantity or qty, whose values are numeric and whose
    name is carried by no other column holds only values [>= 0]. *)
Theorem remove_invalid_rows_nonnegative df w :
  aligned df ->
  exists out,
    returned (remove_invalid_rows df w) = Some out
    /\ forall name d,
        In (name, Num d) (items out) -> is_critical name = true ->
        length (getitem df name) = 1 ->
        nonnegative d.
Proof.
  intros Hal.
  set (cols := (List.filter is_quantity (columns df)
                ++ List.filter is_price (columns df))%list).
  set (mask := foldl (and_checked df) (replicate (len df) true) cols).
  exists (boolean_index mask df). split.
  { unfold remove_invalid_rows, copy, returned. simpl.
    pose proof (invalid_rows_loops_mask df Hal) as H. simpl in H. rewrite H.
    reflexivity. }
  intros name d' Hin Hname Hone. unfold boolean_index in Hin. simpl in Hin.
  apply in_map_iff in Hin as ([name' s] & [= -> Hs] & Hin).
  destruct s as [d|v]; [|discriminate]. simpl in Hs. injection Hs as <-.
  assert (Hg : getitem df name = [Num d]).
  { assert (G : In (Num d) (getitem df name)).
    { unfold getitem. rewrite <- map_fmap. apply in_map_iff.
      exists (name, Num d). split; [reflexivity|]. apply filter_In.
      split; [assumption|apply String.eqb_refl]. }
    destruct (getitem df name) as [|s [|s' l]]; try discriminate.
    destruct G as [->|[]]. reflexivity. }
  assert (Hcol : In name cols).
  { apply in_or_app. rewrite <- is_checked_critical in Hname.
    apply orb_prop in Hname as [Hq|Hp]; [left|right];
      apply filter_In; eauto using In_columns. }
  assert (Hlen : length mask = len df).
  { apply foldl_and_checked_length; [assumption|apply length_replicate]. }
  assert (Hrow : forall i,
             mask !! i = Some true ->
             negative_at d i = false /\ nan_at d i = false).
  { intros i Hi. assert (Hlt : i < len df).
    { rewrite <- Hlen. apply (lookup_lt_Some _ _ _ Hi). }
    unfold mask in Hi.
    rewrite (foldl_and_checked_lookup df cols _ i true) in Hi;
      [|assumption|assumption|apply lookup_replicate_2; assumption].
    simpl in Hi. injection Hi as Hi.
    rewrite forallb_forall in Hi. specialize (Hi name Hcol).
    unfold check_at in Hi. rewrite Hg, ge_zero_at in Hi.
    apply negb_true_iff, orb_false_elim in Hi. exact Hi. }
  destruct d as [v|v|v]; simpl; apply select_Forall; intros i x Hi Hx;
    apply Hrow in Hi as [Hneg Hnan]; simpl in Hneg, Hnan;
    rewrite Hx in *.
  - apply Z.ltb_ge, Hneg.
  - rewrite float_ge0_spec, Hneg, Hnan. reflexivity.
  - destruct x; simpl; lia.
Qed.

Lemma remove_invalid_rows_nonnegative_witness :
  aligned sample_sales
  /\ exists out,
      returned (remove_invalid_rows sample_sales empty_world) = Some out
      /\ forall name d,
          In (name, Num d) (items out) -> is_critical name = true ->
          length (getitem sample_sales name) = 1 ->
          nonnegative d.
Proof.
  split; [compute_done|].
  apply (remove_invalid_rows_nonnegative sample_sales empty_world).
  compute_done.
Defined.

(** C4 as stated fails: the label price of [duplicate_price] is carried
    by two numeric columns, neither is filtered, and -5 stays. *)
Lemma remove_invalid_rows_keeps_duplicate_negative :
  returned (remove_invalid_rows duplicate_price empty_world)
  = Some duplicate_price
  /\ In ("price", Num (Float64 [f_minus_five; f_one])) (items duplicate_price)
  /\ is_critical "price" = true
  /\ ~ nonnegative (Float64 [f_minus_five; f_one]).
Proof.
  split; [reflexivity|]. split; [left; reflexivity|]. split; [reflexivity|].
  simpl. intros H. inversion H as [|x l Hx _]; subst. discriminate Hx.
Qed.

(** ** Missing-value filter *)

Lemma all_notna_length n cols :
  Forall (fun s => series_len s = n) cols -> length (all_notna n cols) = n.
Proof.
  induction 1 as [|s cols Hs _ IH]; simpl; [apply length_replicate|].
  fold (all_notna n cols). rewrite length_zip_with, length_notna, Hs, IH.
  apply Nat.min_id.
Qed.

Lemma all_notna_lookup n cols i :
  Forall (fun s => series_len s = n) cols -> i < n ->
  all_notna n cols !! i
  = Some (forallb (fun s => default true (notna s !! i)) cols).
Proof.
  intros H Hi. induction H as [|s cols Hs _ IH]; simpl.
  - apply lookup_replicate_2, Hi.
  - fold (all_notna n cols). rewrite lookup_zip_with, IH.
    destruct (lookup_lt_is_Some_2 (notna s) i) as [x ->];
      [rewrite length_notna; lia|]. reflexivity.
Qed.

Lemma selected_critical df name s :
  In (name, s) (items df) ->
  existsb (String.eqb name) (List.filter is_critical (columns df))
  = is_critical name.
Proof.
  intros Hin. apply eq_true_iff_eq. rewrite existsb_exists. split.
  - intros (col & [_ Hc]%filter_In & <-%String.eqb_eq). assumption.
  - intros Hc. exists name. split; [|apply String.eqb_refl].
    apply filter_In. eauto using In_columns.
Qed.

Lemma critical_columns_row df i :
  forallb (fun s => default true (notna s !! i))
    (List.filter
       (fun it => existsb (String.eqb it.1) (List.filter is_critical (columns df)))
       (items df)).*2
  = negb (row_lacks_value df i).
Proof.
  apply eq_true_iff_eq.
  rewrite forallb_forall, negb_true_iff. unfold row_lacks_value. split.
  - intros Hall. destruct (existsb _ _) eqn:Hex; [|reflexivity]. exfalso.
    apply existsb_exists in Hex as ([name s] & Hin & Hp). simpl in Hp.
    apply andb_prop in Hp as [Hname Hmiss].
    assert (Hs : In s (List.filter
                         (fun it => existsb (String.eqb it.1)
                                      (List.filter is_critical (columns df)))
                         (items df)).*2).
    { rewrite <- map_fmap. apply in_map_iff. exists (name, s).
      split; [reflexivity|]. apply filter_In. split; [assumption|]. simpl.
      rewrite (selected_critical df name s Hin). assumption. }
    specialize (Hall s Hs). rewrite notna_at, Hmiss in Hall. discriminate.
  - intros Hex s Hs. rewrite <- map_fmap in Hs.
    apply in_map_iff in Hs as ([name s'] & <- & [Hin Hsel]%filter_In).
    simpl in *. rewrite (selected_critical df name s' Hin) in Hsel.
    rewrite notna_at. apply negb_true_iff.
    destruct (missing_at s' i) eqn:Hmiss; [|reflexivity].
    rewrite <- Hex. symmetry. apply existsb_exists. exists (name, s').
    split; [assumption|]. simpl. rewrite Hsel, Hmiss. reflexivity.
Qed.

(** [dropna] on the critical columns removes the rows that lack a value
    in one of them, and no other. *)
Lemma dropna_critical df :
  aligned df ->
  dropna (List.filter is_critical (columns df)) df
  = without_rows (row_lacks_value df) df.
Proof.
  intros Hal. unfold dropna, without_rows. f_equal.
  assert (Hcols : Forall (fun s => series_len s = len df)
                    (List.filter
                       (fun it => existsb (String.eqb it.1)
                                    (List.filter is_critical (columns df)))
                       (items df)).*2).
  { apply Forall_forall. intros s Hs. apply list_elem_of_In in Hs.
    rewrite <- map_fmap in Hs.
    apply in_map_iff in Hs as ([name s'] & <- & [Hin _]%filter_In).
    apply (aligned_In df name s' Hal Hin). }
  apply (list_eq_same_length _ _ (len df)).
  - rewrite length_map, length_seq. reflexivity.
  - apply all_notna_length, Hcols.
  - intros i x y Hi Hx Hy.
    rewrite all_notna_lookup in Hx by assumption.
    rewrite map_fmap, list_lookup_fmap, lookup_seq_lt in Hy by assumption.
    simpl in *. rewrite critical_columns_row in Hx. congruence.
Qed.

Lemma dropna_nothing df : aligned df -> dropna [] df = df.
Proof.
  intros Hal. unfold dropna.
  replace (List.filter _ (items df)) with (@nil (string * Series)).
  - apply boolean_index_all_true, Hal.
  - induction (items df) as [|it its IH]; simpl; [reflexivity|apply IH].
Qed.

(** What the stage returns. *)
Lemma handle_missing_values_returned df w :
  aligned df ->
  returned (handle_missing_values df w)
  = Some (without_rows (row_lacks_value df) df).
Proof.
  intros Hal. rewrite <- (dropna_critical df Hal).
  unfold handle_missing_values, copy.
  destruct (List.filter is_critical (columns df)) as [|col cols]; simpl.
  - unfold returned. simpl. rewrite dropna_nothing by assumption. reflexivity.
  - reflexivity.
Qed.

Lemma row_lacks_value_true df i :
  row_lacks_value df i = true <->
  exists name s,
    In (name, s) (items df) /\ is_critical name = true
    /\ missing_at s i = true.
Proof.
  unfold row_lacks_value. rewrite existsb_exists. split.
  - intros ([name s] & Hin & [Hname Hmiss]%andb_prop). eauto.
  - intros (name & s & Hin & Hname & Hmiss). exists (name, s).
    split; [assumption|]. simpl. rewrite Hname, Hmiss. reflexivity.
Qed.

Lemma notna_all_true_present s :
  Forall (fun b => b = true) (notna s) -> forall i, missing_at s i = false.
Proof.
  intros H i. apply negb_true_iff. rewrite <- notna_at.
  destruct (notna s !! i) as [b|] eqn:Hb; [|reflexivity]. simpl.
  rewrite Forall_forall in H. apply H, (list_elem_of_lookup_2 _ i), Hb.
Qed.

(** C3. After [handle_missing_values] every remaining row has a present
    value in every critical column (a column whose name contains price,
    quantity or qty), and the rows removed are exactly those lacking a
    value in some critical column. *)
Theorem handle_missing_values_keeps_present df w :
  aligned df ->
  exists out,
    returned (handle_missing_values df w) = Some out
    /\ out = without_rows (row_lacks_value df) df
    /\ (forall name s i,
          In (name, s) (items out) -> is_critical name = true ->
          missing_at s i = false)
    /\ (forall i,
          row_lacks_value df i = true <->
          exists name s,
            In (name, s) (items df) /\ is_critical name = true
            /\ missing_at s i = true).
Proof.
  intros Hal. eexists. split; [apply handle_missing_values_returned, Hal|].
  split; [reflexivity|]. split; [|apply row_lacks_value_true].
  intros name s j Hin Hname. revert j. apply notna_all_true_present.
  unfold without_rows, boolean_index in Hin. simpl in Hin.
  apply in_map_iff in Hin as ([name' s0] & [= -> <-] & Hin). simpl.
  rewrite notna_select. apply select_Forall. intros i b Hi%mask_lookup_true Hb.
  assert (Hmiss : missing_at s0 i = false).
  { destruct (missing_at s0 i) eqn:Hm; [|reflexivity].
    rewrite <- Hi. symmetry. apply row_lacks_value_true. eauto. }
  pose proof (notna_at s0 i) as Hat. rewrite Hb, Hmiss in Hat. exact Hat.
Qed.

Lemma handle_missing_values_keeps_present_witness :
  aligned sample_sales
  /\ exists out,
      returned (handle_missing_values sample_sales empty_world) = Some out
      /\ out = without_rows (row_lacks_value sample_sales) sample_sales.
Proof.
  split; [compute_done|].
  destruct (handle_missing_values_keeps_present sample_sales empty_world)
    as (out & Hout & Heq & _); [compute_done|].
  exists out. split; assumption.
Defined.

(** C7. A table that has no column whose name contains price, quantity
    or qty comes back from [handle_missing_values] unchanged; the stage
    returns (it does not raise) and prints the warning. *)
Theorem handle_missing_values_no_critical df w :
  Forall (fun col => is_critical col = false) (columns df) ->
  handle_missing_values df w
  = (Return df,
     {| files := files w; stdout := stdout w ++ [WarningNoCriticalColumns] |}).
Proof.
  intros H. unfold handle_missing_values, copy.
  replace (List.filter is_critical (columns df)) with (@nil string);
    [reflexivity|].
  induction H as [|col cols Hcol _ IH]; simpl; [reflexivity|].
  rewrite Hcol. apply IH.
Qed.

Lemma handle_missing_values_no_critical_witness :
  Forall (fun col => is_critical col = false) (columns no_critical)
  /\ handle_missing_values no_critical empty_world
     = (Return no_critical,
        {| files := ∅; stdout := [WarningNoCriticalColumns] |}).
Proof.
  split; [compute_done|].
  apply (handle_missing_values_no_critical no_critical empty_world).
  compute_done.
Defined.

(** ** Text trimmer *)

Lemma unique_label df col s1 s2 :
  NoDup (columns df) ->
  In (col, s1) (items df) -> In (col, s2) (items df) -> s1 = s2.
Proof.
  intros Hnd H1 H2.
  pose proof (getitem_unique df col s1 Hnd H1) as E1.
  pose proof (getitem_unique df col s2 Hnd H2) as E2.
  congruence.
Qed.

Lemma existsb_label_In col (cols : list string) :
  existsb (String.eqb col) cols = true <-> In col cols.
Proof.
  rewrite existsb_exists. split.
  - intros (c & Hc & <-%String.eqb_eq). assumption.
  - intros H. exists col. split; [assumption|apply String.eqb_refl].
Qed.

Lemma columns_strip_labels cols df : columns (strip_labels cols df) = columns df.
Proof.
  unfold columns, strip_labels. simpl. rewrite <- !map_fmap, map_map.
  apply map_ext. intros [name s]. simpl.
  destruct (existsb _ cols); reflexivity.
Qed.

Lemma columns_setitem col s df :
  In col (columns df) -> columns (setitem col s df) = columns df.
Proof.
  intros Hin. unfold setitem, columns at 1. simpl.
  apply existsb_label_In in Hin. rewrite Hin.
  unfold columns. rewrite <- !map_fmap, map_map. apply map_ext.
  intros [name s']. simpl. destruct (String.eqb name col); reflexivity.
Qed.

Lemma getitem_length df col :
  length (getitem df col)
  = length (List.filter (fun name => String.eqb name col) (columns df)).
Proof.
  unfold getitem, columns. rewrite length_fmap.
  induction (items df) as [|[name s] its IH]; simpl; [reflexivity|].
  destruct (String.eqb name col); simpl; rewrite IH; reflexivity.
Qed.

Lemma hd_error_rev {A} (l : list A) : hd_error (rev l) = last l.
Proof. rewrite <- (rev_involutive l) at 2. symmetry. apply last_rev. Qed.

Lemma strip_idempotent s : Py.strip (Py.strip s) = Py.strip s.
Proof.
  destruct (strip_trimmed s) as (_ & _ & _ & _ & _ & Hhd & Hlast).
  unfold Py.strip at 1. rewrite lstrip_no_leading_space by assumption.
  unfold Py.rstrip_chars. rewrite lstrip_no_leading_space.
  - rewrite rev_involutive. apply string_of_list_ascii_of_string.
  - intros c. rewrite hd_error_rev. apply Hlast.
Qed.

Lemma trimmed_series_idempotent s :
  trimmed_series (trimmed_series s) = trimmed_series s.
Proof.
  destruct s as [d|v]; simpl; [reflexivity|]. f_equal. rewrite map_map.
  apply map_ext. intros [t|]; simpl; [|reflexivity].
  rewrite strip_idempotent. reflexivity.
Qed.

Lemma In_getitem df col s :
  In (col, s) (items df) -> In s (getitem df col).
Proof.
  intros Hin. unfold getitem. rewrite <- map_fmap.
  apply in_map_iff. exists (col, s). split; [reflexivity|].
  apply filter_In. split; [assumption|apply String.eqb_refl].
Qed.

(** One iteration of the loop, when [col] labels one column. *)
Lemma strip_column_single df col s w :
  getitem df col = [s] ->
  strip_column col df w = (Return (strip_labels [col] df), w).
Proof.
  intros Hg. unfold strip_column. rewrite Hg.
  replace (match s with Obj v => Obj (str_strip v) | Num _ => s end)
    with (trimmed_series s) by (destruct s; reflexivity).
  assert (Hin : In (col, s) (items df)).
  { apply getitem_In. rewrite Hg. left. reflexivity. }
  unfold mret, M_ret, setitem, strip_labels. do 2 f_equal.
  pose proof (In_columns df col s Hin) as Hcol.
  apply existsb_label_In in Hcol. rewrite Hcol. f_equal.
  apply map_ext_in. intros [name s'] Hin'. simpl. rewrite orb_false_r.
  destruct (String.eqb_spec name col) as [->|_]; [|reflexivity].
  apply In_getitem in Hin'. rewrite Hg in Hin'.
  destruct Hin' as [<-|[]]. reflexivity.
Qed.

Lemma strip_labels_cons col cols df :
  strip_labels cols (strip_labels [col] df) = strip_labels (col :: cols) df.
Proof.
  unfold strip_labels. simpl. f_equal. rewrite map_map.
  apply map_ext. intros [name s]. simpl. rewrite orb_false_r.
  destruct (String.eqb_spec name col) as [->|Hne]; simpl; [|reflexivity].
  destruct (existsb (String.eqb col) cols); [|reflexivity].
  rewrite trimmed_series_idempotent. reflexivity.
Qed.

(** The loop over labels each of which labels one column. *)
Lemma for_in_strip_column cols df w :
  (forall col, In col cols -> length (getitem df col) = 1) ->
  for_in cols strip_column df w = (Return (strip_labels cols df), w).
Proof.
  revert df. induction cols as [|col cols IH]; intros df Hone; simpl.
  - unfold mret, M_ret, strip_labels. do 2 f_equal. destruct df as [idx its].
    simpl. f_equal. symmetry. apply map_id.
  - destruct (getitem df col) as [|s [|s' l]] eqn:Hg;
      try (specialize (Hone col (or_introl eq_refl)); rewrite Hg in Hone;
           discriminate Hone).
    unfold mbind, M_bind. rewrite (strip_column_single df col s w Hg).
    rewrite IH; [rewrite strip_labels_cons; reflexivity|].
    intros c Hc. rewrite getitem_length, columns_strip_labels, <- getitem_length.
    apply Hone. right. assumption.
Qed.

Lemma NoDup_filter_labels (p : string * Series -> bool) its :
  NoDup its.*1 -> NoDup (List.filter p its).*1.
Proof.
  induction its as [|[name s] its IH]; simpl; [constructor|].
  intros [Hnot Hnd]%NoDup_cons.
  destruct (p (name, s)); simpl; [|apply IH, Hnd].
  apply NoDup_cons. split; [|apply IH, Hnd].
  intros Hin. apply Hnot. apply list_elem_of_In in Hin. apply list_elem_of_In.
  rewrite <- map_fmap in *.
  apply in_map_iff in Hin as (it & <- & [Hin _]%filter_In).
  apply (in_map fst _ _ Hin).
Qed.

Lemma strip_labels_text_columns df :
  strip_labels (columns (select_dtypes_object df)) df = trim_frame df.
Proof.
  unfold strip_labels, trim_frame. f_equal. apply map_ext_in.
  intros [name s] Hin. simpl. destruct s as [d|v]; simpl.
  - destruct (existsb _ _); reflexivity.
  - replace (existsb _ _) with true; [reflexivity|]. symmetry.
    apply existsb_label_In. unfold columns, select_dtypes_object. simpl.
    rewrite <- map_fmap. apply in_map_iff. exists (name, Obj v).
    split; [reflexivity|]. apply filter_In. split; [assumption|reflexivity].
Qed.

Lemma text_labels_unique_spec df :
  text_labels_unique df = true <->
  forall col,
    In col (columns (select_dtypes_object df)) -> length (getitem df col) = 1.
Proof.
  unfold text_labels_unique. rewrite forallb_forall. split; intros H col Hcol.
  - apply Nat.eqb_eq, H, Hcol.
  - apply Nat.eqb_eq, H, Hcol.
Qed.

Lemma text_labels_unique_NoDup df :
  NoDup (columns df) -> text_labels_unique df = true.
Proof.
  intros Hnd. apply text_labels_unique_spec. intros col Hcol.
  unfold columns, select_dtypes_object in Hcol. simpl in Hcol.
  rewrite <- map_fmap in Hcol.
  apply in_map_iff in Hcol as ([name s] & <- & [Hin _]%filter_In).
  simpl. rewrite (getitem_unique df name s Hnd Hin). reflexivity.
Qed.

(** What the stage returns and prints when no label of a text column is
    carried by a second column. *)
Lemma strip_text_whitespace_run_text df w :
  text_labels_unique df = true ->
  strip_text_whitespace df w
  = (Return (trim_frame df),
     {| files := files w;
        stdout := stdout w ++
          [StrippedWhitespace (length (columns (select_dtypes_object df)))] |}).
Proof.
  intros Hu. unfold strip_text_whitespace, copy, mbind, M_bind.
  rewrite for_in_strip_column by (apply text_labels_unique_spec, Hu).
  rewrite strip_labels_text_columns. reflexivity.
Qed.

Lemma strip_text_whitespace_run df w :
  NoDup (columns df) ->
  strip_text_whitespace df w
  = (Return (trim_frame df),
     {| files := files w;
        stdout := stdout w ++
          [StrippedWhitespace (length (columns (select_dtypes_object df)))] |}).
Proof.
  intros Hnd. apply strip_text_whitespace_run_text, text_labels_unique_NoDup, Hnd.
Qed.

Lemma strip_column_frame col df w df' w' :
  strip_column col df w = (Return df', w') ->
  columns df' = columns df /\ index df' = index df.
Proof.
  unfold strip_column.
  destruct (getitem df col) as [|s [|s' l]] eqn:Hg; try discriminate.
  intros [= <- _]. split; [|reflexivity].
  apply columns_setitem. apply (In_columns df col s), getitem_In.
  rewrite Hg. left. reflexivity.
Qed.

Lemma for_in_strip_frame cols df w df' w' :
  for_in cols strip_column df w = (Return df', w') ->
  columns df' = columns df /\ index df' = index df.
Proof.
  revert df w. induction cols as [|col cols IH]; intros df w; simpl.
  - intros [= <- _]. split; reflexivity.
  - unfold mbind, M_bind.
    destruct (strip_column col df w) as [[df1|e] w1] eqn:Hstep;
      [|discriminate].
    apply strip_column_frame in Hstep as [Hc Hi].
    intros [Hc' Hi']%IH. split; congruence.
Qed.

(** The stage changes neither the labels nor the index, whenever it
    returns. *)
Lemma strip_text_whitespace_frame df w out :
  returned (strip_text_whitespace df w) = Some out ->
  columns out = columns df /\ len out = len df.
Proof.
  unfold strip_text_whitespace, copy, returned, mbind, M_bind.
  destruct (for_in _ strip_column df w) as [[df1|e] w1] eqn:Hloop;
    simpl; [|discriminate].
  intros [= <-]. apply for_in_strip_frame in Hloop as [Hc Hi].
  split; [assumption|]. unfold len. rewrite Hi. reflexivity.
Qed.

Lemma strip_trimmed_values v :
  Forall2 trimmed_value v (map (option_map Py.strip) v).
Proof.
  induction v as [|[s|] v IH]; simpl; constructor; try assumption.
  - apply strip_trimmed.
  - exact I.
Qed.

Lemma trim_frame_columns df :
  Forall2 trimmed_column (items df) (items (trim_frame df)).
Proof.
  unfold trim_frame. simpl.
  induction (items df) as [|[name s] its IH]; simpl; constructor;
    try assumption.
  split; [reflexivity|]. simpl.
  destruct s as [d|v]; simpl; [reflexivity|apply strip_trimmed_values].
Qed.

(** C2 (amended). On a table in which no label of a text column is
    carried by a second column, [strip_text_whitespace] returns a table
    with the same rows in which every text column (dtype object, a
    property of the values at run time) has each value trimmed of leading
    and trailing whitespace and every other column is unchanged. *)
Theorem strip_text_whitespace_trims df w :
  text_labels_unique df = true ->
  exists out,
    returned (strip_text_whitespace df w) = Some out
    /\ index out = index df
    /\ Forall2 trimmed_column (items df) (items out).
Proof.
  intros Hu. exists (trim_frame df).
  rewrite strip_text_whitespace_run_text by assumption.
  split; [reflexivity|]. split; [reflexivity|]. apply trim_frame_columns.
Qed.

Lemma strip_text_whitespace_trims_witness :
  text_labels_unique duplicate_amount = true
  /\ exists out,
      returned (strip_text_whitespace duplicate_amount empty_world) = Some out
      /\ index out = index duplicate_amount
      /\ Forall2 trimmed_column (items duplicate_amount) (items out).
Proof.
  split; [reflexivity|].
  apply (strip_text_whitespace_trims duplicate_amount empty_world).
  reflexivity.
Defined.

(** C2 as stated fails: in [duplicate_name] the label of the text column
    is carried by a second column, and the stage raises instead of
    returning a table. *)
Lemma strip_text_whitespace_may_raise :
  (strip_text_whitespace duplicate_name empty_world).1
  = Raise (AttributeError "'DataFrame' object has no attribute 'dtype'")
  /\ ~ (exists out,
          returned (strip_text_whitespace duplicate_name empty_world) = Some out
          /\ index out = index duplicate_name
          /\ Forall2 trimmed_column (items duplicate_name) (items out)).
Proof.
  split; [reflexivity|]. intros (out & Hr & _). vm_compute in Hr.
  discriminate Hr.
Qed.

(** ** Row count and column set *)

Lemma drop_negative_frame df col :
  columns (drop_negative df col) = columns df
  /\ len (drop_negative df col) <= len df.
Proof.
  unfold drop_negative.
  destruct (getitem df col) as [|[d|v] [|s' l]]; try (split; [reflexivity|lia]).
  split; [apply columns_boolean_index|apply len_boolean_index].
Qed.

Lemma foldl_drop_negative_frame cols df :
  columns (foldl drop_negative df cols) = columns df
  /\ len (foldl drop_negative df cols) <= len df.
Proof.
  revert df. induction cols as [|col cols IH]; intros df; simpl;
    [split; [reflexivity|lia]|].
  destruct (IH (drop_negative df col)) as [Hc Hl].
  destruct (drop_negative_frame df col) as [Hc' Hl'].
  split; [congruence|lia].
Qed.

Lemma remove_invalid_rows_frame df w :
  exists out,
    returned (remove_invalid_rows df w) = Some out
    /\ columns out = columns df /\ len out <= len df.
Proof.
  unfold remove_invalid_rows, copy. eexists. split; [reflexivity|].
  set (df1 := foldl drop_negative df (List.filter is_quantity (columns df))).
  destruct (foldl_drop_negative_frame (List.filter is_quantity (columns df)) df)
    as [Hc Hl].
  destruct (foldl_drop_negative_frame (List.filter is_price (columns df1)) df1)
    as [Hc' Hl'].
  fold df1 in Hc, Hl. split; [congruence|lia].
Qed.

Lemma handle_missing_values_frame df w :
  exists out,
    returned (handle_missing_values df w) = Some out
    /\ columns out = columns df /\ len out <= len df.
Proof.
  unfold handle_missing_values, copy.
  destruct (List.filter is_critical (columns df)) as [|col cols];
    eexists; (split; [reflexivity|]).
  - split; [reflexivity|lia].
  - split; [apply columns_boolean_index|apply len_boolean_index].
Qed.

Lemma clean_column_names_frame df w :
  exists out,
    returned (clean_column_names df w) = Some out /\ len out = len df.
Proof.
  rewrite clean_column_names_run. eexists. split; reflexivity.
Qed.

Lemma strip_text_whitespace_returns df w :
  NoDup (columns df) ->
  exists out, returned (strip_text_whitespace df w) = Some out.
Proof.
  intros Hnd. rewrite strip_text_whitespace_run by assumption.
  eexists. reflexivity.
Qed.

(** C5. The row count after [handle_missing_values] and after
    [remove_invalid_rows] is at most the row count before; no stage
    increases it: the two other stages keep it (the text trimmer returns
    on every table with unique column names). *)
Theorem row_count_never_increases df w :
  (exists out,
      returned (handle_missing_values df w) = Some out /\ len out <= len df)
  /\ (exists out,
        returned (remove_invalid_rows df w) = Some out /\ len out <= len df)
  /\ (exists out,
        returned (clean_column_names df w) = Some out /\ len out = len df)
  /\ (forall out,
        returned (strip_text_whitespace df w) = Some out -> len out = len df)
  /\ (NoDup (columns df) ->
      exists out, returned (strip_text_whitespace df w) = Some out).
Proof.
  repeat split.
  - destruct (handle_missing_values_frame df w) as (out & Hr & _ & Hl). eauto.
  - destruct (remove_invalid_rows_frame df w) as (out & Hr & _ & Hl). eauto.
  - apply clean_column_names_frame.
  - intros out Hr. apply (strip_text_whitespace_frame df w out Hr).
  - apply strip_text_whitespace_returns.
Qed.

Lemma row_count_never_increases_witness :
  NoDup (columns sample_sales)
  /\ exists out,
      returned (strip_text_whitespace sample_sales empty_world) = Some out
      /\ len out = len sample_sales.
Proof.
  split; [compute_done|].
  destruct (row_count_never_increases sample_sales empty_world)
    as (_ & _ & _ & Hlen & Hret).
  destruct Hret as [out Hout]; [compute_done|].
  exists out. split; [exact Hout|]. apply Hlen, Hout.
Defined.

(** C9. The column names are unchanged by [strip_text_whitespace],
    [handle_missing_values] and [remove_invalid_rows]; the row count is
    unchanged by [clean_column_names] and [strip_text_whitespace]. *)
Theorem column_names_are_preserved df w :
  (forall out,
      returned (strip_text_whitespace df w) = Some out ->
      columns out = columns df /\ len out = len df)
  /\ (NoDup (columns df) ->
      exists out, returned (strip_text_whitespace df w) = Some out)
  /\ (exists out,
        returned (handle_missing_values df w) = Some out
        /\ columns out = columns df)
  /\ (exists out,
        returned (remove_invalid_rows df w) = Some out
        /\ columns out = columns df)
  /\ (exists out,
        returned (clean_column_names df w) = Some out /\ len out = len df).
Proof.
  split; [|split; [|split; [|split]]].
  - intros out Hr. apply (strip_text_whitespace_frame df w out Hr).
  - apply strip_text_whitespace_returns.
  - destruct (handle_missing_values_frame df w) as (out & Hr & Hc & _). eauto.
  - destruct (remove_invalid_rows_frame df w) as (out & Hr & Hc & _). eauto.
  - apply clean_column_names_frame.
Qed.

Lemma column_names_are_preserved_witness :
  NoDup (columns sample_sales)
  /\ exists out,
      returned (strip_text_whitespace sample_sales empty_world) = Some out
      /\ columns out = columns sample_sales.
Proof.
  split; [compute_done|].
  destruct (column_names_are_preserved sample_sales empty_world)
    as (Hframe & Hret & _).
  destruct Hret as [out Hout]; [compute_done|].
  exists out. split; [exact Hout|]. apply Hframe, Hout.
Defined.

(** ** Blank values in a critical column *)

Lemma columns_trim_frame df : columns (trim_frame df) = columns df.
Proof.
  unfold columns, trim_frame. simpl. rewrite <- !map_fmap, map_map.
  reflexivity.
Qed.

Lemma aligned_trim_frame df : aligned df -> aligned (trim_frame df).
Proof.
  unfold aligned, trim_frame, len. simpl. rewrite map_fmap, Forall_fmap.
  intros H. eapply Forall_impl; [exact H|].
  intros [name [d|v]]; simpl; [tauto|]. rewrite length_map. tauto.
Qed.

Lemma without_rows_keeps drop df i :
  i < len df -> drop i = false ->
  map (fun i => negb (drop i)) (seq 0 (len df)) !! i = Some true.
Proof.
  intros Hi Hd. rewrite map_fmap, list_lookup_fmap, lookup_seq_lt by assumption.
  simpl. rewrite Hd. reflexivity.
Qed.

(** C10 (amended). On a table in which no label of a text column is
    carried by a second column, a text value made of whitespace only
    becomes the empty string under [strip_text_whitespace], not a missing
    value; when it sits in a critical column [handle_missing_values]
    counts it as present: the row is kept unless another critical column
    lacks a value there. *)
Theorem blank_value_is_present df w w' name v i s :
  text_labels_unique df = true -> aligned df ->
  In (name, Obj v) (items df) ->
  v !! i = Some (Some s) -> Py.all_space s = true ->
  exists df1 v1,
    returned (strip_text_whitespace df w) = Some df1
    /\ In (name, Obj v1) (items df1)
    /\ v1 !! i = Some (Some "")
    /\ missing_at (Obj v1) i = false
    /\ ((forall name2 s2,
           In (name2, s2) (items df1) -> is_critical name2 = true ->
           name2 <> name -> missing_at s2 i = false) ->
        exists df2 mask,
          returned (handle_missing_values df1 w') = Some df2
          /\ df2 = boolean_index mask df1
          /\ length mask = len df1
          /\ mask !! i = Some true).
Proof.
  intros Hu Hal Hin Hv Hs.
  exists (trim_frame df), (map (option_map Py.strip) v).
  assert (Hin1 : In (name, Obj (map (option_map Py.strip) v))
                    (items (trim_frame df))).
  { unfold trim_frame. simpl. apply in_map_iff. exists (name, Obj v).
    split; [reflexivity|assumption]. }
  assert (Hv1 : map (option_map Py.strip) v !! i = Some (Some "")).
  { rewrite map_fmap, list_lookup_fmap, Hv. simpl.
    rewrite strip_all_space by assumption. reflexivity. }
  assert (Hpresent : missing_at (Obj (map (option_map Py.strip) v)) i = false).
  { simpl. rewrite Hv1. reflexivity. }
  assert (Hone : length (getitem (trim_frame df) name) = 1).
  { rewrite getitem_length, columns_trim_frame, <- getitem_length.
    apply (proj1 (text_labels_unique_spec df) Hu).
    unfold columns, select_dtypes_object. simpl. rewrite <- map_fmap.
    apply in_map_iff. exists (name, Obj v). split; [reflexivity|].
    apply filter_In. split; [assumption|reflexivity]. }
  split; [rewrite strip_text_whitespace_run_text by assumption; reflexivity|].
  split; [assumption|]. split; [assumption|]. split; [assumption|].
  intros Hothers.
  pose proof (aligned_trim_frame df Hal) as Hal1.
  eexists _, _. split; [apply handle_missing_values_returned, Hal1|].
  split; [reflexivity|]. split; [rewrite length_map; apply length_seq|].
  apply without_rows_keeps.
  - apply lookup_lt_Some in Hv.
    pose proof (aligned_In df name (Obj v) Hal Hin) as Hlen. simpl in Hlen.
    unfold len, trim_frame in *. simpl. lia.
  - destruct (row_lacks_value (trim_frame df) i) eqn:Hrow; [|reflexivity].
    apply row_lacks_value_true in Hrow as (name2 & s2 & Hin2 & Hc2 & Hm2).
    destruct (String.eqb_spec name2 name) as [->|Hne].
    + assert (Hsame : s2 = Obj (map (option_map Py.strip) v))
        by (apply (single_label (trim_frame df) name); assumption).
      congruence.
    + rewrite (Hothers name2 s2 Hin2 Hc2 Hne) in Hm2. discriminate.
Qed.

Lemma blank_value_is_present_witness :
  text_labels_unique text_qty = true /\ aligned text_qty
  /\ Py.all_space "   " = true
  /\ exists df1 v1 df2 mask,
      returned (strip_text_whitespace text_qty empty_world) = Some df1
      /\ In ("qty", Obj v1) (items df1)
      /\ v1 !! 1 = Some (Some "")
      /\ returned (handle_missing_values df1 empty_world) = Some df2
      /\ df2 = boolean_index mask df1
      /\ mask !! 1 = Some true.
Proof.
  split; [reflexivity|]. split; [compute_done|]. split; [reflexivity|].
  destruct (blank_value_is_present text_qty empty_world empty_world
              "qty" [Some "3"; Some "   "] 1 "   ")
    as (df1 & v1 & Hr & Hin & Hv & _ & Hkept);
    [reflexivity|compute_done|left; reflexivity|reflexivity|reflexivity|].
  destruct Hkept as (df2 & mask & Hr2 & Heq & _ & Hm).
  - vm_compute in Hr. injection Hr as <-.
    intros name2 s2 [[= <- <-]|[[= <- <-]|[]]] _ Hne;
      [contradiction|reflexivity].
  - exists df1, v1, df2, mask. auto 7.
Defined.

(** C10 as stated fails: in [duplicate_blank] the blank value sits in a
    text column whose label is carried by a second column; the text
    trimmer raises, so the value never becomes the empty string. *)
Lemma blank_value_behind_duplicate_label :
  In ("qty", Obj [Some "   "]) (items duplicate_blank)
  /\ Py.all_space "   " = true
  /\ is_critical "qty" = true
  /\ (strip_text_whitespace duplicate_blank empty_world).1
     = Raise (AttributeError "'DataFrame' object has no attribute 'dtype'")
  /\ ~ (exists df1,
          returned (strip_text_whitespace duplicate_blank empty_world)
          = Some df1).
Proof.
  split; [left; reflexivity|]. split; [reflexivity|]. split; [reflexivity|].
  split; [reflexivity|]. intros (df1 & Hr). vm_compute in Hr. discriminate Hr.
Qed.

(** ** Loader *)

Section Loader.

Variable parse_csv : string -> ReadFailure + DataFrame.
Variable format_csv : DataFrame -> string.
Variable parent_exists : string -> bool.

Lemma load_data_not_found path w :
  files w !! path = None ->
  load_data parse_csv path w
  = (Raise (FileNotFoundError path),
     {| files := files w; stdout := stdout w ++ [ErrorFileNotFound path] |}).
Proof.
  intros H. unfold load_data, try_except, mbind, M_bind, read_csv.
  rewrite H. reflexivity.
Qed.

Lemma load_data_read_error path w contents e :
  files w !! path = Some contents -> parse_csv contents = inl e ->
  load_data parse_csv path w
  = (Raise (ReadError e),
     {| files := files w;
        stdout := stdout w ++ [ErrorLoadingData (ReadError e)] |}).
Proof.
  intros H He. unfold load_data, try_except, mbind, M_bind, read_csv.
  rewrite H, He. reflexivity.
Qed.

(** Every failure of the loader is one of the two above. *)
Lemma load_data_raises path w e w1 :
  load_data parse_csv path w = (Raise e, w1) ->
  (files w !! path = None /\ e = FileNotFoundError path)
  \/ (exists contents r,
        files w !! path = Some contents /\ parse_csv contents = inl r
        /\ e = ReadError r).
Proof.
  unfold load_data, try_except, mbind, M_bind, read_csv.
  destruct (files w !! path) as [contents|] eqn:H; simpl.
  - destruct (parse_csv contents) as [r|df] eqn:Hr; simpl;
      intros [= <- _]. right. eauto.
  - intros [= <- _]. left. auto.
Qed.

(** A failure of the loader ends the script before anything is written. *)
Lemma main_load_failure w e w1 :
  load_data parse_csv raw_path
    {| files := files w; stdout := stdout w ++ [StartingPipeline] |}
  = (Raise e, w1) ->
  main parse_csv format_csv parent_exists w = (Raise e, w1).
Proof.
  intros H. unfold main, mbind at 1, M_bind at 1, print at 1.
  unfold mbind at 1, M_bind at 1. rewrite H. reflexivity.
Qed.

End Loader.

(** C8. [load_data] raises [FileNotFoundError] (the specification's
    NotFoundError) when the path does not exist and re-raises any other
    failure of the reader (ParseError); every failure reaches the caller
    after one diagnostic line, and the script then stops before it writes
    a file. *)
Theorem load_data_failure_policy
    (parse_csv : string -> ReadFailure + DataFrame)
    (format_csv : DataFrame -> string) (parent_exists : string -> bool)
    (path : string) (w : World) :
  (files w !! path = None ->
   load_data parse_csv path w
   = (Raise (FileNotFoundError path),
      {| files := files w; stdout := stdout w ++ [ErrorFileNotFound path] |})
   /\ error_kind (FileNotFoundError path) = NotFoundError)
  /\ (forall contents r,
        files w !! path = Some contents -> parse_csv contents = inl r ->
        load_data parse_csv path w
        = (Raise (ReadError r),
           {| files := files w;
              stdout := stdout w ++ [ErrorLoadingData (ReadError r)] |})
        /\ error_kind (ReadError r) = ParseError)
  /\ (forall e w1,
        load_data parse_csv path w = (Raise e, w1) ->
        (error_kind e = NotFoundError /\ files w !! path = None
         \/ error_kind e = ParseError /\ is_Some (files w !! path))
        /\ files w1 = files w
        /\ exists line, stdout w1 = (stdout w ++ [line])%list)
  /\ (forall e w1,
        load_data parse_csv raw_path
          {| files := files w; stdout := stdout w ++ [StartingPipeline] |}
        = (Raise e, w1) ->
        exists w2,
          main parse_csv format_csv parent_exists w = (Raise e, w2)
          /\ files w2 = files w).
Proof.
  split; [|split; [|split]].
  - intros H. split; [apply load_data_not_found, H|reflexivity].
  - intros contents r H Hr.
    split; [eapply load_data_read_error; eassumption|reflexivity].
  - intros e w1 Hload.
    destruct (load_data_raises parse_csv path w e w1 Hload)
      as [[H ->]|(contents & r & H & Hr & ->)].
    + rewrite (load_data_not_found parse_csv path w H) in Hload.
      injection Hload as <-. simpl. eauto 6.
    + rewrite (load_data_read_error parse_csv path w contents r H Hr) in Hload.
      injection Hload as <-. simpl. rewrite H. eauto 6.
  - intros e w1 Hload. exists w1.
    split; [apply main_load_failure, Hload|].
    destruct (load_data_raises parse_csv raw_path _ e w1 Hload)
      as [[H ->]|(contents & r & H & Hr & ->)].
    + rewrite (load_data_not_found parse_csv raw_path _ H) in Hload.
      injection Hload as <-. reflexivity.
    + rewrite (load_data_read_error parse_csv raw_path _ contents r H Hr)
        in Hload.
      injection Hload as <-. reflexivity.
Qed.

Lemma load_data_failure_policy_witness :
  files empty_world !! raw_path = None
  /\ exists w2,
      main parse_nothing format_nothing all_exist empty_world
      = (Raise (FileNotFoundError raw_path), w2)
      /\ files w2 = files empty_world.
Proof.
  split; [reflexivity|].
  destruct (load_data_failure_policy parse_nothing format_nothing all_exist
              raw_path empty_world) as (_ & _ & _ & Hmain).
  apply (Hmain (FileNotFoundError raw_path)
               {| files := ∅;
                  stdout := [StartingPipeline; ErrorFileNotFound raw_path] |}).
  reflexivity.
Defined.

(** ** The scenario of the specification *)

(** The raw table: untidy column names, a padded product name, a row
    without quantity and a row with price -5. *)
Example scenario_pipeline :
  let raw :=
    {| index := [0; 1; 2]%Z;
       items :=
         [("Product Name", Obj [Some " Widget "; Some "Gadget"; Some "Gizmo"]);
          ("Unit Price", Num (Float64 [f_one; f_two; f_minus_five]));
          ("Qty Sold ", Num (Float64 [f_two; S754_nan; f_one]))] |} in
  returned
    ((df ← clean_column_names raw;
      df ← strip_text_whitespace df;
      df ← handle_missing_values df;
      remove_invalid_rows df) empty_world)
  = Some {| index := [0]%Z;
            items := [("product_name", Obj [Some "Widget"]);
                      ("unit_price", Num (Float64 [f_one]));
                      ("qty_sold", Num (Float64 [f_two]))] |}.
Proof. reflexivity. Qed.

Example scenario_output :
  printed
    (df ← clean_column_names
            {| index := [0; 1]%Z;
               items := [("Unit Price", Num (Float64 [f_one; f_minus_five]))] |};
     df ← strip_text_whitespace df;
     df ← handle_missing_values df;
     remove_invalid_rows df)
  = [CleanedColumnNames ["unit_price"]; StrippedWhitespace 0;
     RemovedMissing 0 ["unit_price"]; RemovedInvalid 1].
Proof. reflexivity. Qed.

(** A duplicated label on a text column stops the text trimmer. *)
Example duplicated_text_label :
  (strip_text_whitespace
     {| index := [0]%Z;
        items := [("name", Obj [Some " a"]); ("name", Obj [Some "b "])] |}
     empty_world).1
  = Raise (AttributeError "'DataFrame' object has no attribute 'dtype'").
Proof. reflexivity. Qed.

Example contains_examples :
  Py.contains "qty" "qty_sold" = true
  /\ Py.contains "price" "unit_price" = true
  /\ Py.contains "qty" "quantity" = false
  /\ is_critical "product_name" = false.
Proof. repeat split. Qed.

(** * Further properties of the stages *)

(** ** Invariants of a table *)

Lemma select_length {A} (mask : list bool) (l : list A) :
  length (select mask l) = count_kept (take (length l) mask).
Proof.
  unfold count_kept. revert l.
  induction mask as [|b mask IH]; intros [|x l]; simpl; try reflexivity.
  destruct b; simpl; rewrite IH; reflexivity.
Qed.

Lemma series_len_select mask s :
  series_len (series_select mask s) = count_kept (take (series_len s) mask).
Proof. destruct s as [[]|]; simpl; apply select_length. Qed.

Lemma aligned_boolean_index mask df :
  aligned df -> aligned (boolean_index mask df).
Proof.
  unfold aligned, boolean_index, len. simpl.
  rewrite map_fmap, Forall_fmap. intros H. eapply Forall_impl; [exact H|].
  intros [name s] Hs. simpl in *.
  rewrite series_len_select, select_length, Hs. reflexivity.
Qed.

Lemma aligned_set_columns names df :
  aligned df -> aligned (set_columns names df).
Proof.
  unfold aligned, set_columns, len. simpl. rewrite !Forall_forall.
  intros H [name s] Hin. simpl.
  apply elem_of_zip_r, list_elem_of_fmap in Hin as ([name' s'] & -> & Hin).
  apply (H _ Hin).
Qed.

Lemma aligned_drop_negative df col :
  aligned df -> aligned (drop_negative df col).
Proof.
  intros H. unfold drop_negative.
  destruct (getitem df col) as [|[d|v] [|s' l]]; try assumption.
  apply aligned_boolean_index, H.
Qed.

Lemma aligned_foldl_drop_negative cols df :
  aligned df -> aligned (foldl drop_negative df cols).
Proof.
  revert df. induction cols as [|col cols IH]; intros df H; simpl;
    [assumption|].
  apply IH, aligned_drop_negative, H.
Qed.

Lemma series_len_trimmed s : series_len (trimmed_series s) = series_len s.
Proof. destruct s as [d|v]; simpl; [reflexivity|apply length_map]. Qed.

Lemma strip_column_aligned col df w df' w' :
  aligned df -> strip_column col df w = (Return df', w') -> aligned df'.
Proof.
  intros Hal. unfold strip_column.
  destruct (getitem df col) as [|s [|s' l]] eqn:Hg; try discriminate.
  intros [= <- _].
  assert (Hin : In (col, s) (items df)).
  { apply getitem_In. rewrite Hg. left. reflexivity. }
  replace (match s with Obj v => Obj (str_strip v) | Num _ => s end)
    with (trimmed_series s) by (destruct s; reflexivity).
  unfold aligned, setitem, len. simpl.
  pose proof (proj2 (existsb_label_In col (columns df))
                (In_columns df col s Hin)) as Hex.
  rewrite Hex, map_fmap, Forall_fmap.
  eapply Forall_impl; [exact Hal|]. intros [name s'] Hs. simpl in *.
  destruct (String.eqb name col); simpl; [|exact Hs].
  rewrite series_len_trimmed. apply (aligned_In df col s Hal Hin).
Qed.

Lemma for_in_strip_aligned cols df w df' w' :
  aligned df -> for_in cols strip_column df w = (Return df', w') ->
  aligned df'.
Proof.
  revert df w. induction cols as [|col cols IH]; intros df w Hal; simpl.
  - intros [= <- _]. assumption.
  - unfold mbind, M_bind.
    destruct (strip_column col df w) as [[df1|e] w1] eqn:Hstep;
      [|discriminate].
    apply (IH df1 w1). eapply strip_column_aligned; eassumption.
Qed.

(** Every stage keeps the columns as long as the index. *)
Theorem stages_keep_alignment df w out :
  aligned df ->
  (returned (clean_column_names df w) = Some out -> aligned out)
  /\ (returned (strip_text_whitespace df w) = Some out -> aligned out)
  /\ (returned (handle_missing_values df w) = Some out -> aligned out)
  /\ (returned (remove_invalid_rows df w) = Some out -> aligned out).
Proof.
  intros Hal. repeat split.
  - rewrite clean_column_names_run. intros [= <-].
    apply aligned_set_columns, Hal.
  - unfold strip_text_whitespace, copy, returned, mbind, M_bind.
    destruct (for_in _ strip_column df w) as [[df1|e] w1] eqn:Hloop;
      simpl; [|discriminate].
    intros [= <-]. eapply for_in_strip_aligned; eassumption.
  - unfold handle_missing_values, copy.
    destruct (List.filter is_critical (columns df)); intros [= <-];
      [assumption|]. apply aligned_boolean_index, Hal.
  - unfold remove_invalid_rows, copy. intros [= <-].
    apply aligned_foldl_drop_negative, aligned_foldl_drop_negative, Hal.
Qed.

Lemma stages_keep_alignment_witness :
  aligned sample_sales
  /\ exists out,
      returned (remove_invalid_rows sample_sales empty_world) = Some out
      /\ aligned out.
Proof.
  split; [compute_done|]. eexists. split; [reflexivity|].
  eapply (stages_keep_alignment sample_sales empty_world);
    [compute_done|reflexivity].
Defined.

(** ** Column-name normalizer: names and data *)

(** After [clean_column_names] every column name is made of lower-case
    letters, digits and underscores only; the index, the number of
    columns and the values of every column are those of the input. *)
Theorem clean_column_names_word_chars df w :
  exists out,
    returned (clean_column_names df w) = Some out
    /\ index out = index df
    /\ (items out).*2 = (items df).*2
    /\ forall name,
        In name (columns out) ->
        Forall (fun c => Py.word_char c = true) (list_ascii_of_string name).
Proof.
  rewrite clean_column_names_run. eexists. split; [reflexivity|].
  split; [reflexivity|]. split.
  - unfold set_columns. simpl. apply snd_zip.
    unfold columns. rewrite length_map, !length_fmap. lia.
  - intros name. rewrite columns_set_columns
      by (rewrite length_map; apply columns_length).
    intros (old & <- & _)%in_map_iff. apply normalize_name_word_chars.
Qed.

(** ** Text trimmer: idempotence and failure *)

Lemma trim_frame_idempotent df : trim_frame (trim_frame df) = trim_frame df.
Proof.
  unfold trim_frame. simpl. f_equal. rewrite map_map. apply map_ext.
  intros [name s]. simpl. rewrite trimmed_series_idempotent. reflexivity.
Qed.

(** Trimming a trimmed table changes nothing. *)
Theorem strip_text_whitespace_idempotent df w w' :
  NoDup (columns df) ->
  exists out,
    returned (strip_text_whitespace df w) = Some out
    /\ returned (strip_text_whitespace out w') = Some out.
Proof.
  intros Hnd. exists (trim_frame df).
  rewrite !strip_text_whitespace_run
    by (rewrite ?columns_trim_frame; assumption).
  unfold returned. simpl. rewrite trim_frame_idempotent. auto.
Qed.

Lemma strip_text_whitespace_idempotent_witness :
  NoDup (columns sample_sales)
  /\ exists out,
      returned (strip_text_whitespace sample_sales empty_world) = Some out
      /\ returned (strip_text_whitespace out empty_world) = Some out.
Proof.
  split; [compute_done|].
  apply (strip_text_whitespace_idempotent sample_sales empty_world empty_world).
  compute_done.
Defined.








(** ** Rows that survive a mask *)

Lemma select_lookup_inv {A} (mask : list bool) (l : list A) j x :
  select mask l !! j = Some x ->
  exists i, mask !! i = Some true /\ l !! i = Some x.
Proof.
  revert l j. induction mask as [|b mask IH]; intros [|y l] j; simpl;
    try discriminate.
  destruct b.
  - destruct j as [|j]; simpl.
    + intros [= ->]. exists 0. split; reflexivity.
    + intros (i & Hm & Hl)%IH. exists (S i). split; assumption.
  - intros (i & Hm & Hl)%IH. exists (S i). split; assumption.
Qed.

Lemma negative_at_select mask d j :
  negative_at (numeric_select mask d) j = true ->
  exists i, mask !! i = Some true /\ negative_at d i = true.
Proof.
  destruct d as [v|v|v]; simpl;
    destruct (select mask v !! j) as [x|] eqn:Hx; try discriminate;
    apply select_lookup_inv in Hx as (i & Hm & Hv); intros H;
    exists i; rewrite Hv; auto.
Qed.

Lemma nan_at_select mask d j :
  nan_at (numeric_select mask d) j = true ->
  exists i, mask !! i = Some true /\ nan_at d i = true.
Proof.
  destruct d as [v|v|v]; simpl; try discriminate.
  destruct (select mask v !! j) as [x|] eqn:Hx; try discriminate.
  apply select_lookup_inv in Hx as (i & Hm & Hv). intros H.
  exists i. rewrite Hv. auto.
Qed.

Lemma missing_at_select mask s j :
  missing_at (series_select mask s) j = true ->
  exists i, mask !! i = Some true /\ missing_at s i = true.
Proof.
  destruct s as [d|v]; simpl; [apply nan_at_select|].
  destruct (select mask v !! j) as [x|] eqn:Hx; try discriminate.
  apply select_lookup_inv in Hx as (i & Hm & Hv). intros H.
  exists i. rewrite Hv. auto.
Qed.

Lemma In_boolean_index mask df name s' :
  In (name, s') (items (boolean_index mask df)) ->
  exists s, In (name, s) (items df) /\ s' = series_select mask s.
Proof.
  unfold boolean_index. simpl.
  intros ([name0 s] & [= -> <-] & Hin)%in_map_iff. eauto.
Qed.

(** A selection of rows of a table without missing critical value has
    none either. *)
Lemma boolean_index_present mask df :
  (forall name s i,
      In (name, s) (items df) -> is_critical name = true ->
      missing_at s i = false) ->
  forall name s i,
    In (name, s) (items (boolean_index mask df)) -> is_critical name = true ->
    missing_at s i = false.
Proof.
  intros H name s' j (s & Hin & ->)%In_boolean_index Hname.
  destruct (missing_at (series_select mask s) j) eqn:Hm; [|reflexivity].
  apply missing_at_select in Hm as (i & _ & Hm).
  rewrite (H name s i Hin Hname) in Hm. discriminate.
Qed.

(** What is left by the missing-value filter lacks no critical value. *)
Lemma without_lacking_rows_present df name s i :
  In (name, s) (items (without_rows (row_lacks_value df) df)) ->
  is_critical name = true -> missing_at s i = false.
Proof.
  intros (s0 & Hin & ->)%In_boolean_index Hname.
  destruct (missing_at (series_select _ s0) i) eqn:Hm; [|reflexivity].
  apply missing_at_select in Hm as (k & Hk%mask_lookup_true & Hm).
  rewrite <- Hk. symmetry. apply row_lacks_value_true. eauto.
Qed.

(** What is left by the invalid-row filter holds no negative number and
    no NaN in a checked numeric column. *)
Lemma without_invalid_rows_clean df name d i :
  In (name, Num d) (items (without_rows (row_is_invalid df) df)) ->
  is_critical name = true ->
  negative_at d i = false /\ nan_at d i = false.
Proof.
  intros (s0 & Hin & Hs)%In_boolean_index Hname.
  destruct s0 as [d0|v]; [|discriminate]. simpl in Hs. injection Hs as ->.
  split.
  - destruct (negative_at _ i) eqn:Hn; [|reflexivity].
    apply negative_at_select in Hn as (k & Hk%mask_lookup_true & Hn).
    destruct (row_is_invalid_false df k name d0 Hk Hin Hname). congruence.
  - destruct (nan_at _ i) eqn:Hn; [|reflexivity].
    apply nan_at_select in Hn as (k & Hk%mask_lookup_true & Hn).
    destruct (row_is_invalid_false df k name d0 Hk Hin Hname). congruence.
Qed.

Lemma without_rows_none drop df :
  aligned df -> (forall i, drop i = false) -> without_rows drop df = df.
Proof.
  intros Hal H. unfold without_rows.
  transitivity (boolean_index (replicate (len df) true) df);
    [|apply boolean_index_all_true, Hal].
  f_equal. symmetry.
  apply (list_eq_same_length _ _ (len df));
    rewrite ?length_replicate, ?length_map, ?length_seq; try reflexivity.
  intros i x y Hi Hx Hy. apply lookup_replicate_1 in Hx as [-> _].
  rewrite map_fmap, list_lookup_fmap, lookup_seq_lt in Hy by assumption.
  simpl in Hy. rewrite H in Hy. simpl in Hy. congruence.
Qed.

Lemma without_rows_ext drop1 drop2 df :
  (forall i, drop1 i = drop2 i) -> without_rows drop1 df = without_rows drop2 df.
Proof.
  intros H. unfold without_rows. f_equal. apply map_ext. intros i.
  rewrite H. reflexivity.
Qed.

Lemma existsb_ext_in {A} (f g : A -> bool) l :
  (forall x, In x l -> f x = g x) -> existsb f l = existsb g l.
Proof.
  induction l as [|x l IH]; simpl; intros H; [reflexivity|].
  rewrite (H x) by auto. rewrite IH by auto. reflexivity.
Qed.

(** ** The filters applied again and one after the other *)

Lemma columns_without_rows drop df :
  columns (without_rows drop df) = columns df.
Proof. apply columns_boolean_index. Qed.

Lemma aligned_without_rows drop df :
  aligned df -> aligned (without_rows drop df).
Proof. apply aligned_boolean_index. Qed.

(** A second pass of the invalid-row filter removes nothing. *)
Theorem remove_invalid_rows_idempotent df w w' :
  NoDup (columns df) -> aligned df ->
  exists out,
    returned (remove_invalid_rows df w) = Some out
    /\ returned (remove_invalid_rows out w') = Some out.
Proof.
  intros Hnd Hal. exists (without_rows (row_is_invalid df) df).
  rewrite !remove_invalid_rows_run
    by (rewrite ?columns_without_rows; auto using aligned_without_rows).
  split; [reflexivity|]. unfold returned. simpl. f_equal.
  apply without_rows_none; [apply aligned_without_rows, Hal|].
  intros i. destruct (row_is_invalid _ i) eqn:Hrow; [|reflexivity].
  apply row_is_invalid_true in Hrow as (name & d & Hin & Hname & Hbad).
  destruct (without_invalid_rows_clean df name d i Hin Hname) as [Hn Hm].
  destruct Hbad; congruence.
Qed.

Lemma remove_invalid_rows_idempotent_witness :
  NoDup (columns sample_sales) /\ aligned sample_sales
  /\ exists out,
      returned (remove_invalid_rows sample_sales empty_world) = Some out
      /\ returned (remove_invalid_rows out empty_world) = Some out.
Proof.
  split; [compute_done|]. split; [compute_done|].
  apply (remove_invalid_rows_idempotent sample_sales empty_world empty_world);
    compute_done.
Defined.

(** A second pass of the missing-value filter removes nothing. *)
Theorem handle_missing_values_idempotent df w w' :
  aligned df ->
  exists out,
    returned (handle_missing_values df w) = Some out
    /\ returned (handle_missing_values out w') = Some out.
Proof.
  intros Hal. exists (without_rows (row_lacks_value df) df).
  rewrite !handle_missing_values_returned by auto using aligned_without_rows.
  split; [reflexivity|]. f_equal.
  apply without_rows_none; [apply aligned_without_rows, Hal|].
  intros i. destruct (row_lacks_value _ i) eqn:Hrow; [|reflexivity].
  apply row_lacks_value_true in Hrow as (name & s & Hin & Hname & Hm).
  rewrite (without_lacking_rows_present df name s i Hin Hname) in Hm.
  discriminate.
Qed.

Lemma handle_missing_values_idempotent_witness :
  aligned sample_sales
  /\ exists out,
      returned (handle_missing_values sample_sales empty_world) = Some out
      /\ returned (handle_missing_values out empty_world) = Some out.
Proof.
  split; [compute_done|].
  apply (handle_missing_values_idempotent sample_sales empty_world empty_world).
  compute_done.
Defined.

(** On a table with unique column names, behind the missing-value
    filter the invalid-row filter removes the rows that hold a negative
    number in a checked numeric column, and only those: no NaN is left
    for it to remove. *)
Theorem remove_invalid_rows_after_missing df w w' :
  NoDup (columns df) -> aligned df ->
  exists df1,
    returned (handle_missing_values df w) = Some df1
    /\ returned (remove_invalid_rows df1 w')
       = Some (without_rows (row_has_negative df1) df1).
Proof.
  intros Hnd Hal. exists (without_rows (row_lacks_value df) df).
  split; [apply handle_missing_values_returned, Hal|].
  rewrite remove_invalid_rows_run
    by (rewrite ?columns_without_rows; auto using aligned_without_rows).
  unfold returned. simpl. f_equal. apply without_rows_ext. intros i.
  unfold row_is_invalid, row_has_negative. apply existsb_ext_in.
  intros [name [d|v]] Hin; simpl; [|reflexivity].
  destruct (is_checked name) eqn:Hname; simpl; [|reflexivity].
  rewrite is_checked_critical in Hname.
  pose proof (without_lacking_rows_present df name (Num d) i Hin Hname) as Hm.
  simpl in Hm. rewrite Hm. apply orb_false_r.
Qed.

Lemma remove_invalid_rows_after_missing_witness :
  NoDup (columns sample_sales) /\ aligned sample_sales
  /\ exists df1,
      returned (handle_missing_values sample_sales empty_world) = Some df1
      /\ returned (remove_invalid_rows df1 empty_world)
         = Some (without_rows (row_has_negative df1) df1).
Proof.
  split; [compute_done|]. split; [compute_done|].
  apply (remove_invalid_rows_after_missing sample_sales empty_world empty_world);
    compute_done.
Defined.

Lemma foldl_drop_negative_untouched cols df :
  (forall name d, In (name, Num d) (items df) -> In name cols -> False) ->
  foldl drop_negative df cols = df.
Proof.
  induction cols as [|col cols IH]; intros H; simpl; [reflexivity|].
  assert (Hstep : drop_negative df col = df).
  { unfold drop_negative.
    destruct (getitem df col) as [|[d|v] [|s' l]] eqn:Hg; try reflexivity.
    exfalso. apply (H col d); [|left; reflexivity].
    apply getitem_In. rewrite Hg. left. reflexivity. }
  rewrite Hstep. apply IH. intros name d Hin Hc. apply (H name d Hin).
  right. assumption.
Qed.

(** Columns named like a price or a quantity that are not numeric are
    not inspected: a table whose critical columns are all text comes
    back from the invalid-row filter unchanged. *)
Theorem remove_invalid_rows_skips_text df w :
  (forall name d, In (name, Num d) (items df) -> is_critical name = false) ->
  returned (remove_invalid_rows df w) = Some df.
Proof.
  intros H. unfold remove_invalid_rows, copy, returned. simpl.
  rewrite (foldl_drop_negative_untouched (List.filter is_quantity _)).
  - rewrite foldl_drop_negative_untouched; [reflexivity|].
    intros name d Hin [_ Hp]%filter_In. specialize (H name d Hin).
    rewrite <- is_checked_critical in H.
    unfold is_checked in H. rewrite Hp, orb_true_r in H. discriminate.
  - intros name d Hin [_ Hq]%filter_In. specialize (H name d Hin).
    rewrite <- is_checked_critical in H.
    unfold is_checked in H. rewrite Hq in H. discriminate.
Qed.

Lemma remove_invalid_rows_skips_text_witness :
  (forall name d,
      In (name, Num d) (items text_critical) -> is_critical name = false)
  /\ returned (remove_invalid_rows text_critical empty_world)
     = Some text_critical.
Proof.
  assert (H : forall name d,
             In (name, Num d) (items text_critical) ->
             is_critical name = false).
  { intros name d [[=]|[[=]|[[= <- _]|[]]]]. reflexivity. }
  split; [exact H|].
  apply (remove_invalid_rows_skips_text text_critical empty_world H).
Defined.

Lemma select_zip_with {A B C} (f : A -> B -> C) mask (l : list A) (k : list B) :
  select mask (zip_with f l k) = zip_with f (select mask l) (select mask k).
Proof.
  revert l k. induction mask as [|b mask IH]; intros [|x l] [|y k]; simpl;
    try reflexivity.
  - destruct b; [reflexivity|]. destruct (select mask l); reflexivity.
  - destruct b; simpl; rewrite IH; reflexivity.
Qed.

Lemma select_replicate {A} mask n (x : A) :
  length mask = n -> select mask (replicate n x) = replicate (count_kept mask) x.
Proof.
  unfold count_kept. revert n.
  induction mask as [|b mask IH]; intros [|n]; simpl; try discriminate;
    try reflexivity.
  intros [= H]. destruct b; simpl; rewrite (IH n H); reflexivity.
Qed.

Lemma all_notna_select mask n cols :
  length mask = n ->
  all_notna (count_kept mask) (map (series_select mask) cols)
  = select mask (all_notna n cols).
Proof.
  intros Hm. induction cols as [|s cols IH]; simpl.
  - symmetry. apply select_replicate, Hm.
  - fold (all_notna (count_kept mask) (map (series_select mask) cols)).
    fold (all_notna n cols).
    rewrite IH, notna_select, select_zip_with. reflexivity.
Qed.

Lemma len_boolean_index_full mask df :
  length mask = len df -> len (boolean_index mask df) = count_kept mask.
Proof.
  intros H. unfold len, boolean_index in *. simpl.
  rewrite select_length, <- H, firstn_all. reflexivity.
Qed.

Lemma filter_label_boolean_index (p : string -> bool) mask its :
  List.filter (fun it => p it.1)
              (map (fun it : string * Series => (it.1, series_select mask it.2)) its)
  = map (fun it => (it.1, series_select mask it.2))
        (List.filter (fun it => p it.1) its).
Proof.
  induction its as [|[name s] its IH]; simpl; [reflexivity|].
  destruct (p name); simpl; rewrite IH; reflexivity.
Qed.

(** [dropna] on a table already filtered by [mask]. *)
Lemma dropna_boolean_index subset mask df :
  length mask = len df ->
  dropna subset (boolean_index mask df)
  = boolean_index
      (zip_with andb mask
         (all_notna (len df)
            (List.filter (fun it => existsb (String.eqb it.1) subset)
                         (items df)).*2))
      df.
Proof.
  intros Hm. unfold dropna at 1.
  rewrite len_boolean_index_full by assumption.
  unfold boolean_index at 2. simpl.
  rewrite (filter_label_boolean_index
             (fun name => existsb (String.eqb name) subset)).
  rewrite <- !map_fmap, map_map. simpl.
  rewrite <- (map_map snd (series_select mask)).
  rewrite (all_notna_select mask (len df)) by assumption.
  apply boolean_index_twice.
Qed.

Lemma foldl_and_checked_split df cols mask :
  aligned df -> length mask = len df ->
  foldl (and_checked df) mask cols
  = zip_with andb mask (foldl (and_checked df) (replicate (len df) true) cols).
Proof.
  intros Hal Hm.
  assert (Hfull : length (foldl (and_checked df) (replicate (len df) true) cols)
                  = len df).
  { apply foldl_and_checked_length; [assumption|apply length_replicate]. }
  apply (list_eq_same_length _ _ (len df)).
  - rewrite length_zip_with, Hm, Hfull. apply Nat.min_id.
  - apply foldl_and_checked_length; assumption.
  - intros i x y Hi Hx Hy.
    destruct (lookup_lt_is_Some_2 mask i) as [b Hb]; [lia|].
    rewrite (foldl_and_checked_lookup df cols mask i b) in Hx by assumption.
    rewrite lookup_zip_with, Hb in Hy. simpl in Hy.
    rewrite (foldl_and_checked_lookup df cols _ i true) in Hy;
      [|assumption|assumption|apply lookup_replicate_2; assumption].
    simpl in Hy. congruence.
Qed.

Lemma zip_with_andb_comm (l k : list bool) :
  zip_with andb l k = zip_with andb k l.
Proof.
  revert k. induction l as [|x l IH]; intros [|y k]; simpl; try reflexivity.
  rewrite IH, andb_comm. reflexivity.
Qed.

Lemma handle_missing_values_dropna df w :
  aligned df ->
  returned (handle_missing_values df w)
  = Some (dropna (List.filter is_critical (columns df)) df).
Proof.
  intros Hal. rewrite handle_missing_values_returned, dropna_critical
    by assumption. reflexivity.
Qed.

Lemma remove_invalid_rows_boolean_index mask df w :
  returned (remove_invalid_rows (boolean_index mask df) w)
  = Some (boolean_index
            (foldl (and_checked df) mask
               (List.filter is_quantity (columns df)
                ++ List.filter is_price (columns df)))
            df).
Proof.
  unfold remove_invalid_rows, copy, returned. simpl.
  rewrite columns_boolean_index, foldl_drop_negative, columns_boolean_index,
    foldl_drop_negative, <- foldl_app.
  reflexivity.
Qed.

(** The two filters commute: the missing-value filter followed by the
    invalid-row filter returns the same table as the invalid-row filter
    followed by the missing-value filter. *)
Theorem filters_commute df w1 w2 w3 w4 :
  aligned df ->
  exists a b out,
    returned (handle_missing_values df w1) = Some a
    /\ returned (remove_invalid_rows a w2) = Some out
    /\ returned (remove_invalid_rows df w3) = Some b
    /\ returned (handle_missing_values b w4) = Some out.
Proof.
  intros Hal.
  set (crit := List.filter is_critical (columns df)).
  set (checked := (List.filter is_quantity (columns df)
                   ++ List.filter is_price (columns df))%list).
  set (Mh := all_notna (len df)
               (List.filter (fun it => existsb (String.eqb it.1) crit)
                            (items df)).*2).
  set (Mr := foldl (and_checked df) (replicate (len df) true) checked).
  assert (HMh : length Mh = len df).
  { apply all_notna_length, Forall_forall. intros s Hs.
    apply list_elem_of_In in Hs. rewrite <- map_fmap in Hs.
    apply in_map_iff in Hs as ([name s'] & <- & [Hin _]%filter_In).
    apply (aligned_In df name s' Hal Hin). }
  assert (HMr : length Mr = len df).
  { apply foldl_and_checked_length; [assumption|apply length_replicate]. }
  exists (boolean_index Mh df), (boolean_index Mr df),
    (boolean_index (zip_with andb Mh Mr) df).
  split; [apply handle_missing_values_dropna, Hal|].
  split.
  { rewrite remove_invalid_rows_boolean_index. fold checked.
    rewrite foldl_and_checked_split by assumption. reflexivity. }
  split.
  { rewrite <- (boolean_index_all_true df Hal) at 1.
    apply remove_invalid_rows_boolean_index. }
  rewrite handle_missing_values_dropna by apply aligned_boolean_index, Hal.
  rewrite columns_boolean_index. fold crit.
  rewrite dropna_boolean_index by assumption. fold Mh.
  rewrite zip_with_andb_comm. reflexivity.
Qed.

Lemma filters_commute_witness :
  aligned sample_sales
  /\ exists a b out,
      returned (handle_missing_values sample_sales empty_world) = Some a
      /\ returned (remove_invalid_rows a empty_world) = Some out
      /\ returned (remove_invalid_rows sample_sales empty_world) = Some b
      /\ returned (handle_missing_values b empty_world) = Some out.
Proof.
  split; [compute_done|].
  apply (filters_commute sample_sales empty_world empty_world empty_world
           empty_world).
  compute_done.
Defined.

(** ** Order of the rows and reported counts *)

Lemma select_sublist {A} mask (l : list A) : select mask l `sublist_of` l.
Proof.
  revert l. induction mask as [|b mask IH]; intros [|x l]; simpl;
    try apply sublist_nil_l.
  destruct b; [apply sublist_skip|apply sublist_cons]; apply IH.
Qed.

Lemma index_drop_negative df col :
  index (drop_negative df col) `sublist_of` index df.
Proof.
  unfold drop_negative.
  destruct (getitem df col) as [|[d|v] [|s' l]]; try reflexivity.
  apply select_sublist.
Qed.

Lemma index_foldl_drop_negative cols df :
  index (foldl drop_negative df cols) `sublist_of` index df.
Proof.
  revert df. induction cols as [|col cols IH]; intros df; simpl;
    [reflexivity|].
  etransitivity; [apply IH|apply index_drop_negative].
Qed.

(** Both filters keep the surviving rows in their order and under their
    index labels: the index of the result is a sublist of the index of
    the input (it is not renumbered). *)
Theorem filters_keep_index_order df w :
  (exists out,
      returned (handle_missing_values df w) = Some out
      /\ index out `sublist_of` index df)
  /\ (exists out,
        returned (remove_invalid_rows df w) = Some out
        /\ index out `sublist_of` index df).
Proof.
  split.
  - unfold handle_missing_values, copy.
    destruct (List.filter is_critical (columns df)); eexists;
      (split; [reflexivity|]); [reflexivity|apply select_sublist].
  - unfold remove_invalid_rows, copy. eexists. split; [reflexivity|].
    etransitivity; apply index_foldl_drop_negative.
Qed.

Lemma count_kept_complement (drop : nat -> bool) (l : list nat) :
  count_kept (map (fun i => negb (drop i)) l) + length (List.filter drop l)
  = length l.
Proof.
  unfold count_kept. induction l as [|i l IH]; simpl; [reflexivity|].
  destruct (drop i); simpl; lia.
Qed.

Lemma len_without_rows drop df :
  len (without_rows drop df) + count_rows drop df = len df.
Proof.
  unfold without_rows, count_rows.
  rewrite len_boolean_index_full by (rewrite length_map; apply length_seq).
  rewrite count_kept_complement. apply length_seq.
Qed.

(** The number the invalid-row filter reports is the number of rows that
    hold a negative number or NaN in a checked numeric column. *)
Theorem remove_invalid_rows_reports_count df w :
  NoDup (columns df) -> aligned df ->
  (remove_invalid_rows df w).2
  = {| files := files w;
       stdout := stdout w ++
         [RemovedInvalid (Z.of_nat (count_rows (row_is_invalid df) df))] |}.
Proof.
  intros Hnd Hal. rewrite remove_invalid_rows_run by assumption. simpl.
  pose proof (len_without_rows (row_is_invalid df) df) as Hlen.
  replace (Z.of_nat (len df)
           - Z.of_nat (len (without_rows (row_is_invalid df) df)))%Z
    with (Z.of_nat (count_rows (row_is_invalid df) df)) by lia.
  reflexivity.
Qed.

Lemma remove_invalid_rows_reports_count_witness :
  NoDup (columns sample_sales) /\ aligned sample_sales
  /\ stdout (remove_invalid_rows sample_sales empty_world).2
     = [RemovedInvalid 2].
Proof.
  split; [compute_done|]. split; [compute_done|].
  rewrite (remove_invalid_rows_reports_count sample_sales empty_world);
    [reflexivity|compute_done|compute_done].
Defined.

(** When there are critical columns, the number the missing-value filter
    reports is the number of rows that lack a value in one of them. *)
Theorem handle_missing_values_reports_count df w :
  aligned df -> List.filter is_critical (columns df) <> [] ->
  (handle_missing_values df w).2
  = {| files := files w;
       stdout := stdout w ++
         [RemovedMissing (Z.of_nat (count_rows (row_lacks_value df) df))
                         (List.filter is_critical (columns df))] |}.
Proof.
  intros Hal Hcrit. unfold handle_missing_values, copy.
  pose proof (dropna_critical df Hal) as Hdrop.
  destruct (List.filter is_critical (columns df)) as [|col cols];
    [congruence|].
  simpl. rewrite Hdrop.
  pose proof (len_without_rows (row_lacks_value df) df) as Hlen.
  replace (Z.of_nat (len df)
           - Z.of_nat (len (without_rows (row_lacks_value df) df)))%Z
    with (Z.of_nat (count_rows (row_lacks_value df) df)) by lia.
  reflexivity.
Qed.

Lemma handle_missing_values_reports_count_witness :
  aligned sample_sales
  /\ List.filter is_critical (columns sample_sales) <> []
  /\ stdout (handle_missing_values sample_sales empty_world).2
     = [RemovedMissing 1 ["unit_price"; "qty_sold"]].
Proof.
  split; [compute_done|]. split; [discriminate|].
  rewrite (handle_missing_values_reports_count sample_sales empty_world);
    [reflexivity|compute_done|discriminate].
Defined.

(** ** The script and the file system *)

Lemma keeps_files_bind {A B} (m : M A) (f : A -> M B) :
  keeps_files m -> (forall a, keeps_files (f a)) -> keeps_files (m ≫= f).
Proof.
  intros Hm Hf w. unfold mbind, M_bind. specialize (Hm w).
  destruct (m w) as [[a|e] w1]; simpl in *; [|assumption].
  rewrite Hf. assumption.
Qed.

Lemma keeps_files_print l : keeps_files (print l).
Proof. intros w. reflexivity. Qed.

Lemma keeps_files_ret {A} (a : A) : keeps_files (mret a).
Proof. intros w. reflexivity. Qed.

Lemma keeps_files_clean_column_names df : keeps_files (clean_column_names df).
Proof. intros w. rewrite clean_column_names_run. reflexivity. Qed.

Lemma for_in_strip_world cols df w :
  (for_in cols strip_column df w).2 = w.
Proof.
  revert df. induction cols as [|col cols IH]; intros df; simpl;
    [reflexivity|].
  unfold mbind, M_bind, strip_column at 1.
  destruct (getitem df col) as [|s [|s' l]]; simpl; try reflexivity.
  apply IH.
Qed.

Lemma keeps_files_strip_text_whitespace df :
  keeps_files (strip_text_whitespace df).
Proof.
  intros w. unfold strip_text_whitespace, copy, mbind, M_bind.
  pose proof (for_in_strip_world (columns (select_dtypes_object df)) df w) as H.
  destruct (for_in _ strip_column df w) as [[df1|e] w1]; simpl in *;
    rewrite H; reflexivity.
Qed.

Lemma keeps_files_handle_missing_values df :
  keeps_files (handle_missing_values df).
Proof.
  intros w. unfold handle_missing_values.
  destruct (List.filter is_critical (columns (copy df))); reflexivity.
Qed.

Lemma keeps_files_remove_invalid_rows df :
  keeps_files (remove_invalid_rows df).
Proof. intros w. reflexivity. Qed.

Lemma writes_on_return_bind {A B} path written (m : M A) (f : A -> M B) :
  keeps_files m -> (forall a, writes_on_return path written (f a)) ->
  writes_on_return path written (m ≫= f).
Proof.
  intros Hm Hf w. unfold mbind, M_bind. specialize (Hm w).
  destruct (m w) as [[a|e] w1]; simpl in *; [|assumption].
  specialize (Hf a w1). destruct (f a w1) as [[b|e] w2]; rewrite <- Hm;
    assumption.
Qed.

Section ScriptEffects.

Variable parse_csv : string -> ReadFailure + DataFrame.
Variable format_csv : DataFrame -> string.
Variable parent_exists : string -> bool.

Lemma load_data_world path w :
  exists line,
    (load_data parse_csv path w).2
    = {| files := files w; stdout := stdout w ++ [line] |}.
Proof.
  unfold load_data, try_except, mbind, M_bind, read_csv.
  destruct (files w !! path) as [contents|]; simpl; [|eauto].
  destruct (parse_csv contents) as [r|df]; simpl; eauto.
Qed.

Lemma keeps_files_load_data path : keeps_files (load_data parse_csv path).
Proof.
  intros w. destruct (load_data_world path w) as [line ->]. reflexivity.
Qed.

Lemma main_writes_on_return :
  writes_on_return cleaned_path
    (fun contents => exists out, contents = format_csv out)
    (main parse_csv format_csv parent_exists).
Proof.
  unfold main.
  apply writes_on_return_bind; [apply keeps_files_print|intros _].
  apply writes_on_return_bind; [apply keeps_files_load_data|intros df_raw].
  apply writes_on_return_bind; [apply keeps_files_print|intros _].
  apply writes_on_return_bind;
    [apply keeps_files_clean_column_names|intros df1].
  apply writes_on_return_bind;
    [apply keeps_files_strip_text_whitespace|intros df2].
  apply writes_on_return_bind;
    [apply keeps_files_handle_missing_values|intros df3].
  apply writes_on_return_bind;
    [apply keeps_files_remove_invalid_rows|intros df4].
  intros w. unfold mbind, M_bind, to_csv.
  destruct (parent_exists cleaned_path); simpl; [|reflexivity].
  exists (format_csv df4). eauto.
Qed.

End ScriptEffects.

(** [load_data] prints exactly one line and leaves the file system as it
    is, whatever the outcome; on a file that exists and parses it returns
    the parsed table and the line reports its row count and the path. *)
Theorem load_data_outcome
    (parse_csv : string -> ReadFailure + DataFrame) (path : string)
    (w : World) :
  (exists line,
      (load_data parse_csv path w).2
      = {| files := files w; stdout := stdout w ++ [line] |})
  /\ (forall contents df,
        files w !! path = Some contents -> parse_csv contents = inr df ->
        load_data parse_csv path w
        = (Return df,
           {| files := files w;
              stdout := stdout w ++ [LoadedRows (len df) path] |})).
Proof.
  split; [apply load_data_world|].
  intros contents df H Hp.
  unfold load_data, try_except, mbind, M_bind, read_csv.
  rewrite H, Hp. reflexivity.
Qed.

(** The script writes the cleaned file exactly when it runs to its end,
    with the serialization of a table as contents, and never touches
    another path; when it raises, at whatever stage, the file system is
    as before. *)
Theorem main_file_effects
    (parse_csv : string -> ReadFailure + DataFrame)
    (format_csv : DataFrame -> string) (parent_exists : string -> bool)
    (w : World) :
  match main parse_csv format_csv parent_exists w with
  | (Return _, w') =>
      exists out, files w' = <[cleaned_path := format_csv out]> (files w)
  | (Raise _, w') => files w' = files w
  end.
Proof.
  pose proof (main_writes_on_return parse_csv format_csv parent_exists w) as H.
  destruct (main parse_csv format_csv parent_exists w) as [[u|e] w'];
    [|assumption].
  destruct H as (contents & [out ->] & H). eauto.
Qed.

Lemma load_data_outcome_witness :
  files sample_world !! raw_path = Some "Product Name,Unit Price,Qty Sold"
  /\ load_data parse_sample raw_path sample_world
     = (Return sample_sales,
        {| files := files sample_world;
           stdout := [LoadedRows 4 raw_path] |}).
Proof.
  split; [reflexivity|].
  destruct (load_data_outcome parse_sample raw_path sample_world) as [_ H].
  apply (H "Product Name,Unit Price,Qty Sold" sample_sales); reflexivity.
Defined.

(** ** The script from end to end *)

Lemma bind_run {A B} (m : M A) (f : A -> M B) w a w1 :
  m w = (Return a, w1) -> (m ≫= f) w = f a w1.
Proof. intros H. unfold mbind, M_bind. rewrite H. reflexivity. Qed.

Lemma run_of_returned {A} (m : M A) w a :
  returned (m w) = Some a -> m w = (Return a, (m w).2).
Proof.
  unfold returned. destruct (m w) as [[a'|e] w1]; simpl; [|discriminate].
  intros [= ->]. reflexivity.
Qed.

Lemma nonnegative_pointwise d :
  (forall i, negative_at d i = false /\ nan_at d i = false) -> nonnegative d.
Proof.
  intros H. destruct d as [v|v|v]; simpl; apply Forall_lookup; intros i x Hx;
    destruct (H i) as [Hn Hm]; simpl in Hn, Hm; rewrite Hx in *.
  - apply Z.ltb_ge, Hn.
  - rewrite float_ge0_spec, Hn, Hm. reflexivity.
  - destruct x; simpl; lia.
Qed.

Section EndToEnd.

Variable parse_csv : string -> ReadFailure + DataFrame.
Variable format_csv : DataFrame -> string.
Variable parent_exists : string -> bool.
Variable df : DataFrame.
Hypothesis Haligned : aligned df.
Hypothesis Hunique : NoDup (map normalize_name (columns df)).

Let df1 := set_columns (map normalize_name (columns df)) df.
Let df2 := trim_frame df1.
Let df3 := without_rows (row_lacks_value df2) df2.
Let df4 := without_rows (row_is_invalid df3) df3.

Lemma stage_columns :
  columns df1 = map normalize_name (columns df)
  /\ columns df2 = columns df1
  /\ columns df3 = columns df1
  /\ columns df4 = columns df1.
Proof.
  assert (H1 : columns df1 = map normalize_name (columns df)).
  { apply columns_set_columns. rewrite length_map. apply columns_length. }
  assert (H2 : columns df2 = columns df1) by apply columns_trim_frame.
  assert (H3 : columns df3 = columns df1).
  { unfold df3. rewrite columns_without_rows. exact H2. }
  repeat split; try assumption.
  unfold df4. rewrite columns_without_rows. exact H3.
Qed.

Lemma stage_aligned : aligned df1 /\ aligned df2 /\ aligned df3.
Proof.
  assert (H1 : aligned df1) by apply aligned_set_columns, Haligned.
  assert (H2 : aligned df2) by apply aligned_trim_frame, H1.
  repeat split; try assumption. apply aligned_without_rows, H2.
Qed.

Lemma run_stages_returned w : returned (run_stages df w) = Some df4.
Proof.
  destruct stage_columns as (C1 & C2 & C3 & _).
  destruct stage_aligned as (A1 & A2 & A3).
  unfold run_stages.
  rewrite (bind_run _ _ _ _ _ (clean_column_names_run df w)). fold df1.
  rewrite (bind_run _ _ _ _ _
             (strip_text_whitespace_run df1 _ ltac:(rewrite C1; exact Hunique))).
  fold df2.
  rewrite (bind_run _ _ _ _ _
             (run_of_returned _ _ _ (handle_missing_values_returned df2 _ A2))).
  fold df3.
  rewrite remove_invalid_rows_run;
    [reflexivity|rewrite C3, C1; exact Hunique|exact A3].
Qed.

(** The script up to the call of [to_csv]. *)
Lemma main_run w contents :
  files w !! raw_path = Some contents -> parse_csv contents = inr df ->
  exists w1,
    files w1 = files w
    /\ main parse_csv format_csv parent_exists w
       = (x ← to_csv format_csv parent_exists df4 cleaned_path;
          (fun _ : unit =>
             print (CleanedDataShape (shape df4));;
             print (SavedCleanedData cleaned_path);;
             print CleaningComplete;;
             print FirstRowsHeader;;
             print (PrintedFrame (head 5 df4));;
             print DataTypesHeader;;
             print (PrintedDtypes (dtypes df4))) x) w1.
Proof.
  intros Hfile Hparse.
  destruct stage_columns as (C1 & C2 & C3 & _).
  destruct stage_aligned as (A1 & A2 & A3).
  unfold main.
  erewrite bind_run; [|reflexivity].
  erewrite bind_run;
    [|unfold load_data, try_except, mbind, M_bind, read_csv; simpl;
      rewrite Hfile, Hparse; reflexivity].
  erewrite bind_run; [|reflexivity].
  erewrite bind_run; [|apply clean_column_names_run]. fold df1.
  erewrite bind_run;
    [|apply strip_text_whitespace_run; rewrite C1; exact Hunique].
  fold df2.
  erewrite bind_run;
    [|apply run_of_returned, handle_missing_values_returned, A2].
  fold df3.
  erewrite bind_run;
    [|apply remove_invalid_rows_run; [rewrite C3, C1; exact Hunique|exact A3]].
  fold df4.
  eexists. split; [|reflexivity]. simpl.
  rewrite keeps_files_handle_missing_values. reflexivity.
Qed.

Lemma main_run_written w contents :
  files w !! raw_path = Some contents -> parse_csv contents = inr df ->
  parent_exists cleaned_path = true ->
  exists w2,
    main parse_csv format_csv parent_exists w = (Return tt, w2)
    /\ files w2 = <[cleaned_path := format_csv df4]> (files w).
Proof.
  intros Hfile Hparse Hdir.
  destruct (main_run w contents Hfile Hparse) as (w1 & Hfiles & ->).
  unfold mbind, M_bind, to_csv. rewrite Hdir. simpl.
  eexists. split; [reflexivity|]. simpl. rewrite Hfiles. reflexivity.
Qed.

Lemma main_run_no_directory w contents :
  files w !! raw_path = Some contents -> parse_csv contents = inr df ->
  parent_exists cleaned_path = false ->
  exists w2,
    main parse_csv format_csv parent_exists w = (Raise missing_directory, w2)
    /\ files w2 = files w.
Proof.
  intros Hfile Hparse Hdir.
  destruct (main_run w contents Hfile Hparse) as (w1 & Hfiles & ->).
  unfold mbind, M_bind, to_csv. rewrite Hdir.
  eexists. split; [reflexivity|assumption].
Qed.

Lemma cleaned_table_valid :
  columns df4 = map normalize_name (columns df)
  /\ len df4 <= len df
  /\ (forall name s i,
        In (name, s) (items df4) -> is_critical name = true ->
        missing_at s i = false)
  /\ (forall name d,
        In (name, Num d) (items df4) -> is_critical name = true ->
        nonnegative d).
Proof.
  destruct stage_columns as (C1 & _ & _ & C4).
  split; [congruence|]. split.
  { unfold df4, df3, without_rows.
    etransitivity; [apply len_boolean_index|].
    etransitivity; [apply len_boolean_index|]. reflexivity. }
  split.
  - apply boolean_index_present. intros name s i.
    apply without_lacking_rows_present.
  - intros name d Hin Hname. apply nonnegative_pointwise. intros i.
    apply (without_invalid_rows_clean df3 name d i Hin Hname).
Qed.

End EndToEnd.

(** On a table whose normalized column names are pairwise distinct the
    four stages, run in the order of the script, return a table with the
    normalized names and at most as many rows, in which no critical
    column lacks a value and every numeric critical column holds only
    values [>= 0]. *)
Theorem run_stages_valid df :
  aligned df -> NoDup (map normalize_name (columns df)) ->
  exists out,
    (forall w, returned (run_stages df w) = Some out)
    /\ columns out = map normalize_name (columns df)
    /\ len out <= len df
    /\ (forall name s i,
          In (name, s) (items out) -> is_critical name = true ->
          missing_at s i = false)
    /\ (forall name d,
          In (name, Num d) (items out) -> is_critical name = true ->
          nonnegative d).
Proof.
  intros Hal Hnd. eexists. split.
  - intros w. apply (run_stages_returned df Hal Hnd w).
  - apply (cleaned_table_valid df).
Qed.

Lemma run_stages_valid_witness :
  aligned sample_sales
  /\ NoDup (map normalize_name (columns sample_sales))
  /\ exists out,
      returned (run_stages sample_sales empty_world) = Some out
      /\ len out <= len sample_sales.
Proof.
  split; [compute_done|]. split; [compute_done|].
  destruct (run_stages_valid sample_sales) as (out & Hrun & _ & Hlen & _);
    [compute_done|compute_done|].
  exists out. split; [apply Hrun|exact Hlen].
Defined.

(** When the raw file exists and parses to such a table, the script
    reaches [to_csv].  If the directory of the cleaned path exists, it
    runs to its end and leaves in the cleaned file the serialization of
    the table the four stages return; if not, it raises [OSError] there
    and writes nothing. *)
Theorem main_writes_cleaned_table
    (parse_csv : string -> ReadFailure + DataFrame)
    (format_csv : DataFrame -> string) (parent_exists : string -> bool)
    (df : DataFrame) (w : World) (contents : string) :
  files w !! raw_path = Some contents -> parse_csv contents = inr df ->
  aligned df -> NoDup (map normalize_name (columns df)) ->
  exists out,
    (forall w0, returned (run_stages df w0) = Some out)
    /\ (parent_exists cleaned_path = true ->
        exists w2,
          main parse_csv format_csv parent_exists w = (Return tt, w2)
          /\ files w2 = <[cleaned_path := format_csv out]> (files w))
    /\ (parent_exists cleaned_path = false ->
        exists w2,
          main parse_csv format_csv parent_exists w
          = (Raise missing_directory, w2)
          /\ files w2 = files w).
Proof.
  intros Hfile Hparse Hal Hnd. eexists. split; [|split].
  - intros w0. apply (run_stages_returned df Hal Hnd w0).
  - intros Hdir.
    apply (main_run_written parse_csv format_csv parent_exists df Hal Hnd
             w contents Hfile Hparse Hdir).
  - intros Hdir.
    apply (main_run_no_directory parse_csv format_csv parent_exists df Hal Hnd
             w contents Hfile Hparse Hdir).
Qed.

Lemma main_writes_cleaned_table_witness :
  files sample_world !! raw_path = Some "Product Name,Unit Price,Qty Sold"
  /\ aligned sample_sales
  /\ NoDup (map normalize_name (columns sample_sales))
  /\ exists out w2,
      returned (run_stages sample_sales empty_world) = Some out
      /\ main parse_sample format_nothing all_exist sample_world
         = (Return tt, w2)
      /\ files w2 !! cleaned_path = Some (format_nothing out).
Proof.
  split; [reflexivity|]. split; [compute_done|]. split; [compute_done|].
  destruct (main_writes_cleaned_table parse_sample format_nothing all_exist
              sample_sales sample_world "Product Name,Unit Price,Qty Sold")
    as (out & Hrun & Hwritten & _);
    [reflexivity|reflexivity|compute_done|compute_done|].
  destruct Hwritten as (w2 & Hmain & Hfiles); [reflexivity|].
  exists out, w2. split; [apply Hrun|]. split; [exact Hmain|].
  rewrite Hfiles. apply lookup_insert_eq.
Defined.

(** ** Column names that collide *)







(** Raw names that normalize to [dtype]: the trimmer raises
    [ValueError]. *)
Example run_stages_dtype_collision :
  (run_stages
     {| index := [0]%Z;
        items := [("Dtype", Obj [Some "a"]); ("dtype ", Obj [Some "b"])] |}
     empty_world).1
  = Raise frame_truth_ambiguous.
Proof. reflexivity. Qed.
